(** * E-commerce analytics API: the aggregation layer of [api/main.py]

    A shallow embedding of the request handlers of [api/main.py] and the
    properties of their results.

    Conventions of the embedding.
    - Python [float] and SQL [Float] columns are exact rationals ([Q]);
      [Integer] columns are [Z]; [String] columns are [string].
    - Every column of a row holds a value (the data model of the service has
      no missing fields), so SQL NULL only arises as the value of [SUM] and
      [AVG] over no rows.
    - The store is the one the module configures by default,
      [sqlite:///./analytics.db]: a [DateTime] column is kept as the text
      [YYYY-MM-DD HH:MM:SS.ffffff] and compared with a text literal byte by
      byte.
    - A handler runs in a session: a database, a counter of the statements
      executed so far, and an oracle telling which statements the storage
      layer fails. *)

From Stdlib Require Import NArith ZArith QArith List String Ascii Bool Lia Arith.
From Stdlib Require Import Permutation Sorted DecimalString.
Import ListNotations.

Local Open Scope string_scope.
Local Open Scope N_scope.

(** ** Calendar dates: [datetime.date], [datetime.datetime], [timedelta] *)

Module Calendar.

Record date := mkdate { year : N; month : N; day : N }.

Record datetime := mkdatetime {
  on_date : date;
  hour : N;
  minute : N;
  second : N;
  microsecond : N
}.

Definition is_leap (y : N) : bool :=
  (y mod 4 =? 0) && (negb (y mod 100 =? 0) || (y mod 400 =? 0)).

Definition days_in_month (y m : N) : N :=
  match m with
  | 1 | 3 | 5 | 7 | 8 | 10 | 12 => 31
  | 4 | 6 | 9 | 11 => 30
  | 2 => if is_leap y then 29 else 28
  | _ => 0
  end.

(** The range a [date] object can hold: 0001-01-01 .. 9999-12-31. *)
Definition date_valid (d : date) : bool :=
  (1 <=? year d) && (year d <=? 9999) &&
  (1 <=? month d) && (month d <=? 12) &&
  (1 <=? day d) && (day d <=? days_in_month (year d) (month d)).

Definition datetime_valid (t : datetime) : bool :=
  date_valid (on_date t) && (hour t <? 24) && (minute t <? 60) &&
  (second t <? 60) && (microsecond t <? 1000000).

(** The order of [date] objects. *)
Definition date_compare (a b : date) : comparison :=
  match N.compare (year a) (year b) with
  | Eq => match N.compare (month a) (month b) with
          | Eq => N.compare (day a) (day b)
          | c => c
          end
  | c => c
  end.

Definition date_le (a b : date) : Prop := date_compare a b <> Gt.
Definition date_lt (a b : date) : Prop := date_compare a b = Lt.

(** [d - timedelta(days=1)]; [None] is Python's [OverflowError] below
    [date.min]. *)
Definition yesterday (d : date) : option date :=
  if 1 <? day d then Some (mkdate (year d) (month d) (day d - 1))
  else if 1 <? month d then
    Some (mkdate (year d) (month d - 1) (days_in_month (year d) (month d - 1)))
  else if 1 <? year d then Some (mkdate (year d - 1) 12 31)
  else None.

(** [d - timedelta(days=n)]. *)
Fixpoint minus_days (d : date) (n : nat) : option date :=
  match n with
  | O => Some d
  | S k => match yesterday d with
           | Some p => minus_days p k
           | None => None
           end
  end.

(** *** Text forms *)

Definition digit (n : N) : ascii := ascii_of_N (48 + n mod 10).

Definition pad2 (n : N) : string :=
  String (digit (n / 10)) (String (digit n) EmptyString).

Definition pad4 (n : N) : string := pad2 (n / 100) ++ pad2 (n mod 100).

Definition pad6 (n : N) : string := pad2 (n / 10000) ++ pad4 (n mod 10000).

(** [str(d)], that is [d.isoformat()]: what the f-string puts between the
    quotes. *)
Definition isoformat (d : date) : string :=
  pad4 (year d) ++ "-" ++ pad2 (month d) ++ "-" ++ pad2 (day d).

(** The text SQLAlchemy stores in SQLite for a [DateTime] value. *)
Definition storage_text (t : datetime) : string :=
  isoformat (on_date t) ++ " " ++ pad2 (hour t) ++ ":" ++ pad2 (minute t)
    ++ ":" ++ pad2 (second t) ++ "." ++ pad6 (microsecond t).

End Calendar.

(** ** Python values: truthiness, dictionaries, [max] and [min] *)

Module Py.

(** [if s:] on an optional string: [None] and the empty string are falsy. *)
Definition truthy (o : option string) : bool :=
  match o with
  | Some s => negb (String.eqb s "")
  | None => false
  end.

(** [x or 0] on a number that may be [None]. *)
Definition or_zero (o : option Q) : Q :=
  match o with
  | Some q => q
  | None => 0%Q
  end.

(** A [dict] with string keys, in insertion order. *)
Definition dict (V : Type) : Type := list (string * V).

Fixpoint dict_get {V : Type} (d : dict V) (k : string) : option V :=
  match d with
  | [] => None
  | (k', v) :: rest => if String.eqb k' k then Some v else dict_get rest k
  end.

(** [d[k] = v]: an existing key keeps its place, a new one goes last. *)
Fixpoint dict_set {V : Type} (d : dict V) (k : string) (v : V) : dict V :=
  match d with
  | [] => [(k, v)]
  | (k', v') :: rest =>
      if String.eqb k' k then (k', v) :: rest else (k', v') :: dict_set rest k v
  end.

Definition keys {V : Type} (d : dict V) : list string := map fst d.

Definition Qlt_bool (a b : Q) : bool := negb (Qle_bool b a).

(** [max(it, key=f)] keeps the first element whose key is largest,
    [min(it, key=f)] the first whose key is smallest. *)
Fixpoint max_from {A : Type} (f : A -> Q) (best : A) (l : list A) : A :=
  match l with
  | [] => best
  | x :: rest => max_from f (if Qlt_bool (f best) (f x) then x else best) rest
  end.

Fixpoint min_from {A : Type} (f : A -> Q) (best : A) (l : list A) : A :=
  match l with
  | [] => best
  | x :: rest => min_from f (if Qlt_bool (f x) (f best) then x else best) rest
  end.

(** [max(d, key=d.get) if d else None] *)
Definition max_key (d : dict Q) : option string :=
  match keys d with
  | [] => None
  | k :: rest => Some (max_from (fun k => or_zero (dict_get d k)) k rest)
  end.

Definition min_key (d : dict Q) : option string :=
  match keys d with
  | [] => None
  | k :: rest => Some (min_from (fun k => or_zero (dict_get d k)) k rest)
  end.

(** [f"{n}"] for a non-negative integer. *)
Definition str_of_nat (n : nat) : string :=
  NilEmpty.string_of_uint (Nat.to_uint n).

End Py.

(** ** The tables *)

Module SalesTransaction.
Record t := mk {
  id : Z;
  transaction_id : string;
  customer_id : string;
  product_id : string;
  product_name : string;
  category : string;
  quantity : Z;
  unit_price : Q;
  total_amount : Q;
  transaction_date : Calendar.datetime;
  region : string;
  channel : string;
  created_at : Calendar.datetime
}.
End SalesTransaction.

Module CustomerMetrics.
Record t := mk {
  id : Z;
  customer_id : string;
  total_orders : Z;
  total_spent : Q;
  avg_order_value : Q;
  last_purchase_date : Calendar.datetime;
  customer_lifetime_value : Q;
  is_active : bool;
  acquisition_date : Calendar.datetime;
  updated_at : Calendar.datetime
}.
End CustomerMetrics.

Record database := mkdb {
  sales_transactions : list SalesTransaction.t;
  customer_metrics : list CustomerMetrics.t
}.

(** ** SQL: spliced literals, aggregates, grouping, ordering *)

Module Sql.

(** Characters that end or alter a quoted literal inside [text(...)]: the
    quote itself, and the colon and backslash of the bind-parameter syntax
    (and the NUL byte, which no statement may hold). *)
Definition plain_char (c : ascii) : bool :=
  negb (Ascii.eqb c "'"%char) && negb (Ascii.eqb c ":"%char) &&
  negb (Ascii.eqb c "\"%char) && negb (Ascii.eqb c zero).

Fixpoint plain (s : string) : bool :=
  match s with
  | EmptyString => true
  | String c rest => plain_char c && plain rest
  end.

(** What a request parameter becomes once the f-string has put it between
    two quotes. *)
Inductive spliced :=
| Literal (s : string)  (* a string literal with this value *)
| Unterminated          (* its last quote pairs with the closing one: the
                           literal runs to the end of the statement *)
| Opaque.               (* the literal ends inside the parameter, whose
                           remainder is read as SQL *)

Fixpoint splice (s : string) : spliced :=
  match s with
  | EmptyString => Literal EmptyString
  | String c rest =>
      if plain_char c then
        match splice rest with
        | Literal l => Literal (String c l)
        | other => other
        end
      else if Ascii.eqb c "'"%char && String.eqb rest "" then Unterminated
      else Opaque
  end.

(** Comparison of two TEXT values (SQLite's BINARY collation). *)
Definition text_ge (a b : string) : bool :=
  match String.compare a b with Lt => false | _ => true end.

Definition text_le (a b : string) : bool :=
  match String.compare a b with Gt => false | _ => true end.

(** [SUM(x)], [AVG(x)] over the values of a column: NULL over no rows.
    The sum and the quotient are the exact ones: the rounding of IEEE doubles
    is not modelled, so the properties say which rows a sum or a mean ranges
    over, and equate two sums only when both range over the same rows in the
    same order. *)
Definition total (l : list Q) : Q := fold_right Qplus 0%Q l.

Definition SUM (l : list Q) : option Q :=
  match l with
  | [] => None
  | _ => Some (total l)
  end.

Definition mean (l : list Q) : Q :=
  (total l / inject_Z (Z.of_nat (List.length l)))%Q.

Definition AVG (l : list Q) : option Q :=
  match l with
  | [] => None
  | _ => Some (mean l)
  end.

Definition SUMZ (l : list Z) : Z := fold_right Z.add 0%Z l.

Section Grouping.
Context {A K : Type} (eqb : K -> K -> bool) (key : A -> K).

(** The distinct values of a list, in order of first appearance. *)
Fixpoint distinct (l : list K) : list K :=
  match l with
  | [] => []
  | k :: rest => k :: filter (fun k' => negb (eqb k k')) (distinct rest)
  end.

(** [GROUP BY key]: one group per distinct key, holding the rows that
    carry it. *)
Definition group_by (rows : list A) : list (K * list A) :=
  map (fun k => (k, filter (fun a => eqb (key a) k) rows))
      (distinct (map key rows)).

End Grouping.

Section Ordering.
Context {A : Type} (key : A -> Q).

Fixpoint insert_desc (a : A) (l : list A) : list A :=
  match l with
  | [] => [a]
  | b :: rest =>
      if Qle_bool (key b) (key a) then a :: b :: rest
      else b :: insert_desc a rest
  end.

(** [ORDER BY key DESC]; rows with equal keys keep their order. *)
Fixpoint order_by_desc (l : list A) : list A :=
  match l with
  | [] => []
  | a :: rest => insert_desc a (order_by_desc rest)
  end.

End Ordering.

(** [LIMIT n] *)
Definition LIMIT {A : Type} (n : nat) (l : list A) : list A := firstn n l.

End Sql.

(** ** Sessions: statements executed against a store that may fail *)

Record environment := mkenv {
  fails : nat -> bool;              (* the statements the storage layer fails *)
  today : Calendar.date;            (* [date.today()] *)
  utcnow : Calendar.datetime;       (* [datetime.utcnow()] *)
  ENVIRONMENT : option string       (* the process environment variable *)
}.

Record session := mksession {
  store : database;
  executed : nat
}.

Inductive outcome (A : Type) : Type :=
| Done (a : A) (s : session)   (* returns [a] *)
| Raised (s : session)         (* an exception propagates *)
| NoModel.                     (* a statement whose text the request rewrote *)

Arguments Done {A} a s.
Arguments Raised {A} s.
Arguments NoModel {A}.

Definition M (A : Type) : Type := session -> outcome A.

Definition ret {A : Type} (a : A) : M A := fun s => Done a s.

Definition bind {A B : Type} (c : M A) (k : A -> M B) : M B :=
  fun s =>
    match c s with
    | Done a s' => k a s'
    | Raised s' => Raised s'
    | NoModel => NoModel
    end.

Definition raise {A : Type} : M A := fun s => Raised s.

(** [try: body  except Exception: handler] *)
Definition try_except {A : Type} (body handler : M A) : M A :=
  fun s =>
    match body s with
    | Raised s' => handler s'
    | other => other
    end.

Declare Scope session_scope.
Delimit Scope session_scope with session.
Notation "x <- c ;; k" := (bind c (fun x => k))
  (at level 61, c at next level, right associativity) : session_scope.
Local Open Scope session_scope.

(** [a / b] on two [int]s: the quotient, or [ZeroDivisionError] when [b]
    is 0. *)
Definition truediv (a b : nat) : M Q :=
  if (b =? 0)%nat then raise
  else ret (inject_Z (Z.of_nat a) / inject_Z (Z.of_nat b))%Q.

Definition tick (s : session) : session :=
  mksession (store s) (S (executed s)).

(** What the WHERE clause of a statement selects, once the parameters are
    spliced in. *)
Inductive clause :=
| Rows (p : SalesTransaction.t -> bool)  (* the rows satisfying [p] *)
| Malformed                              (* the statement does not lex *)
| Unknown.                               (* not the handler's statement *)

(** [db.execute(text(...))] of a statement with a fixed text. *)
Definition execute {A : Type} (env : environment) (q : database -> A) : M A :=
  fun s =>
    if fails env (executed s) then Raised (tick s)
    else Done (q (store s)) (tick s).

(** [db.execute(text(...))] of a statement with a spliced WHERE clause. *)
Definition execute_where {A : Type} (env : environment) (w : clause)
  (q : (SalesTransaction.t -> bool) -> database -> A) : M A :=
  fun s =>
    if fails env (executed s) then Raised (tick s)
    else match w with
         | Rows p => Done (q p (store s)) (tick s)
         | Malformed => Raised (tick s)
         | Unknown => NoModel
         end.

(** An endpoint answers with a body, or raises [HTTPException]. *)
Inductive response (A : Type) : Type :=
| Ok (body : A)
| HTTPException (status_code : Z) (detail : string).

Arguments Ok {A} body.
Arguments HTTPException {A} status_code detail.

(** ** WHERE clauses built from request parameters *)

Inductive condition :=
| date_ge (d : Calendar.date)   (* transaction_date >= '{d}' *)
| date_le (d : Calendar.date)   (* transaction_date <= '{d}' *)
| region_eq (raw : string)      (* region = '{raw}' *)
| channel_eq (raw : string).    (* channel = '{raw}' *)

Definition column_eq (col : SalesTransaction.t -> string) (raw : string)
  : clause :=
  match Sql.splice raw with
  | Sql.Literal v => Rows (fun r => String.eqb (col r) v)
  | Sql.Unterminated => Malformed
  | Sql.Opaque => Unknown
  end.

Definition stored_date (r : SalesTransaction.t) : string :=
  Calendar.storage_text (SalesTransaction.transaction_date r).

Definition condition_clause (c : condition) : clause :=
  match c with
  | date_ge d => Rows (fun r => Sql.text_ge (stored_date r) (Calendar.isoformat d))
  | date_le d => Rows (fun r => Sql.text_le (stored_date r) (Calendar.isoformat d))
  | region_eq raw => column_eq SalesTransaction.region raw
  | channel_eq raw => column_eq SalesTransaction.channel raw
  end.

(** [" AND ".join(conditions)] followed by the rest of the statement, which
    holds no quote: an unterminated literal is fatal in the last condition
    and swallows the conditions after it anywhere else. *)
Fixpoint join_and (cs : list condition) : clause :=
  match cs with
  | [] => Rows (fun _ => true)
  | c :: rest =>
      match condition_clause c with
      | Rows p =>
          match join_and rest with
          | Rows q => Rows (fun r => p r && q r)
          | other => other
          end
      | Malformed => match rest with [] => Malformed | _ => Unknown end
      | Unknown => Unknown
      end
  end.

(** [" WHERE category = '{category}'"], appended [if category:]. *)
Definition category_clause (category : option string) : clause :=
  match category with
  | Some raw =>
      if Py.truthy category then column_eq SalesTransaction.category raw
      else Rows (fun _ => true)
  | None => Rows (fun _ => true)
  end.

(** ** Response bodies *)

Module HealthResponse.
Record t := mk {
  status : string;
  timestamp : Calendar.datetime;
  database_status : string;
  environment : string
}.
End HealthResponse.

(** An entry of [top_selling_products]. *)
Module SellingProduct.
Record t := mk {
  product_name : string;
  total_quantity : Z;
  total_revenue : Q
}.
End SellingProduct.

Module SalesMetricsResponse.
Record t := mk {
  total_revenue : Q;
  total_transactions : nat;
  avg_transaction_value : Q;
  top_selling_products : list SellingProduct.t;
  revenue_by_region : Py.dict Q;
  revenue_by_channel : Py.dict Q
}.
End SalesMetricsResponse.

(** An entry of [top_customers]. *)
Module TopCustomer.
Record t := mk {
  customer_id : string;
  total_spent : Q;
  total_orders : Z;
  customer_lifetime_value : Q
}.
End TopCustomer.

Module CustomerAnalyticsResponse.
Record t := mk {
  total_customers : nat;
  active_customers : nat;
  avg_customer_lifetime_value : Q;
  customer_retention_rate : Q;
  top_customers : list TopCustomer.t
}.
End CustomerAnalyticsResponse.

(** An entry of [top_performing_products]. *)
Module PerformingProduct.
Record t := mk {
  product_name : string;
  category : string;
  total_sold : Z;
  total_revenue : Q;
  avg_price : Q
}.
End PerformingProduct.

Module InventoryInsights.
Record t := mk {
  total_categories : nat;
  most_profitable_category : option string;
  least_profitable_category : option string
}.
End InventoryInsights.

Module ProductPerformanceResponse.
Record t := mk {
  total_products : nat;
  top_performing_products : list PerformingProduct.t;
  category_performance : Py.dict Q;
  inventory_insights : InventoryInsights.t
}.
End ProductPerformanceResponse.

Module SeedResponse.
Record t := mk { message : string }.
End SeedResponse.

(** ** The statements of the handlers, as functions of the tables *)

Module Query.
Import SalesTransaction.

Definition string2_eqb (a b : string * string) : bool :=
  String.eqb (fst a) (fst b) && String.eqb (snd a) (snd b).

Definition string3_eqb (a b : string * string * string) : bool :=
  string2_eqb (fst a) (fst b) && String.eqb (snd a) (snd b).

(** [SELECT 1] *)
Definition select_1 (db : database) : Z := 1%Z.

(** [SELECT SUM(total_amount), COUNT( * ), AVG(total_amount)
     FROM sales_transactions WHERE ...] *)
Definition revenue_query (p : t -> bool) (db : database)
  : option Q * nat * option Q :=
  let rows := filter p (sales_transactions db) in
  (Sql.SUM (map total_amount rows), List.length rows,
   Sql.AVG (map total_amount rows)).

(** [GROUP BY product_name, product_id] *)
Definition product_key (r : t) : string * string :=
  (product_name r, product_id r).

(** [SELECT product_name, SUM(quantity), SUM(total_amount) ... WHERE ...
     GROUP BY product_name, product_id ORDER BY total_revenue DESC LIMIT 10] *)
Definition top_products_query (p : t -> bool) (db : database)
  : list (string * Z * Q) :=
  Sql.LIMIT 10
    (Sql.order_by_desc snd
       (map (fun g => (fst (fst g),
                       Sql.SUMZ (map quantity (snd g)),
                       Sql.total (map total_amount (snd g))))
            (Sql.group_by string2_eqb product_key
               (filter p (sales_transactions db))))).

(** [SELECT col, SUM(total_amount) ... WHERE ... GROUP BY col] *)
Definition revenue_by (col : t -> string) (p : t -> bool) (db : database)
  : list (string * Q) :=
  map (fun g => (fst g, Sql.total (map total_amount (snd g))))
      (Sql.group_by String.eqb col (filter p (sales_transactions db))).

Definition region_query := revenue_by region.
Definition channel_query := revenue_by channel.

(** [db.query(SalesTransaction).count()] *)
Definition count_transactions (db : database) : nat :=
  List.length (sales_transactions db).

(** [db.query(CustomerMetrics).count()] *)
Definition count_customers (db : database) : nat :=
  List.length (customer_metrics db).

(** [db.query(CustomerMetrics).filter(CustomerMetrics.is_active == True)
     .count()] *)
Definition count_active_customers (db : database) : nat :=
  List.length (filter CustomerMetrics.is_active (customer_metrics db)).

(** [SELECT AVG(customer_lifetime_value) FROM customer_metrics] *)
Definition avg_clv_query (db : database) : option Q :=
  Sql.AVG (map CustomerMetrics.customer_lifetime_value (customer_metrics db)).

(** [SELECT customer_id, total_spent, total_orders, customer_lifetime_value
     FROM customer_metrics ORDER BY customer_lifetime_value DESC LIMIT 10] *)
Definition top_customers_query (db : database) : list CustomerMetrics.t :=
  Sql.LIMIT 10
    (Sql.order_by_desc CustomerMetrics.customer_lifetime_value
       (customer_metrics db)).

(** [SELECT COUNT(DISTINCT product_id) FROM sales_transactions [WHERE ...]] *)
Definition total_products_query (p : t -> bool) (db : database) : nat :=
  List.length
    (Sql.distinct String.eqb
       (map product_id (filter p (sales_transactions db)))).

(** [GROUP BY product_id, product_name, category] *)
Definition performance_key (r : t) : string * string * string :=
  (product_id r, product_name r, category r).

(** [SELECT product_name, category, SUM(quantity), SUM(total_amount),
     AVG(unit_price) ... GROUP BY product_id, product_name, category
     ORDER BY total_revenue DESC LIMIT 10]; a group has at least one row, so
    its [AVG] is its mean. *)
Definition performing_products_query (p : t -> bool) (db : database)
  : list PerformingProduct.t :=
  Sql.LIMIT 10
    (Sql.order_by_desc PerformingProduct.total_revenue
       (map (fun g => PerformingProduct.mk
                        (snd (fst (fst g)))
                        (snd (fst g))
                        (Sql.SUMZ (map quantity (snd g)))
                        (Sql.total (map total_amount (snd g)))
                        (Sql.mean (map unit_price (snd g))))
            (Sql.group_by string3_eqb performance_key
               (filter p (sales_transactions db))))).

(** [SELECT category, SUM(total_amount) AS revenue FROM sales_transactions
     GROUP BY category ORDER BY revenue DESC] *)
Definition category_query (db : database) : list (string * Q) :=
  Sql.order_by_desc snd
    (map (fun g => (fst g, Sql.total (map total_amount (snd g))))
         (Sql.group_by String.eqb category (sales_transactions db))).

End Query.

(** ** The handlers *)

Definition internal_server_error {A : Type} : M (response A) :=
  ret (HTTPException 500%Z "Internal server error").

(** [GET /health] *)
Definition health_check (env : environment) : M (response HealthResponse.t) :=
  db_status <- try_except
                 (_ <- execute env Query.select_1 ;; ret "healthy")
                 (ret "unhealthy") ;;
  ret (Ok (HealthResponse.mk
             (if String.eqb db_status "healthy" then "healthy" else "unhealthy")
             (utcnow env)
             db_status
             (match ENVIRONMENT env with
              | Some v => v
              | None => "development"
              end))).

(** Lines 164-181 of [get_sales_analytics]: the defaults of the date range
    and the list [conditions]. *)
Definition default_end (env : environment) (end_date : option Calendar.date)
  : Calendar.date :=
  match end_date with
  | Some d => d
  | None => today env
  end.

Definition default_start (start_date : option Calendar.date)
  (end_date : Calendar.date) : M Calendar.date :=
  match start_date with
  | Some d => ret d
  | None =>
      match Calendar.minus_days end_date 30 with
      | Some d => ret d
      | None => raise
      end
  end.

Definition conditions (start_date end_date : Calendar.date)
  (region channel : option string) : list condition :=
  ([date_ge start_date; date_le end_date]
   ++ (match region with
       | Some raw => if Py.truthy region then [region_eq raw] else []
       | None => []
       end)
   ++ (match channel with
       | Some raw => if Py.truthy channel then [channel_eq raw] else []
       | None => []
       end))%list.

Definition to_dict (rows : list (string * Q)) : Py.dict Q :=
  fold_left (fun d row => Py.dict_set d (fst row) (snd row)) rows [].

(** [GET /api/v1/analytics/sales] *)
Definition get_sales_analytics (env : environment)
  (start_date end_date : option Calendar.date)
  (region channel : option string)
  : M (response SalesMetricsResponse.t) :=
  try_except
    (let end_date := default_end env end_date in
     start_date <- default_start start_date end_date ;;
     let where_clause :=
       join_and (conditions start_date end_date region channel) in
     result <- execute_where env where_clause Query.revenue_query ;;
     let total_revenue := Py.or_zero (fst (fst result)) in
     let total_transactions := snd (fst result) in
     let avg_transaction_value := Py.or_zero (snd result) in
     rows <- execute_where env where_clause Query.top_products_query ;;
     let top_products :=
       map (fun row => SellingProduct.mk (fst (fst row)) (snd (fst row))
                                         (snd row)) rows in
     rows <- execute_where env where_clause Query.region_query ;;
     let revenue_by_region := to_dict rows in
     rows <- execute_where env where_clause Query.channel_query ;;
     let revenue_by_channel := to_dict rows in
     ret (Ok (SalesMetricsResponse.mk total_revenue total_transactions
                avg_transaction_value top_products revenue_by_region
                revenue_by_channel)))
    internal_server_error.

(** [GET /api/v1/analytics/customers] *)
Definition get_customer_analytics (env : environment)
  (start_date end_date : option Calendar.date)
  : M (response CustomerAnalyticsResponse.t) :=
  try_except
    (total_customers <- execute env Query.count_customers ;;
     active_customers <- execute env Query.count_active_customers ;;
     avg_clv_result <- execute env Query.avg_clv_query ;;
     let avg_clv := Py.or_zero avg_clv_result in
     retention_rate <-
       (if (0 <? total_customers)%nat
        then ratio <- truediv active_customers total_customers ;;
             ret (ratio * 100)%Q
        else ret 0%Q) ;;
     rows <- execute env Query.top_customers_query ;;
     let top_customers :=
       map (fun row => TopCustomer.mk
                         (CustomerMetrics.customer_id row)
                         (CustomerMetrics.total_spent row)
                         (CustomerMetrics.total_orders row)
                         (CustomerMetrics.customer_lifetime_value row))
           rows in
     ret (Ok (CustomerAnalyticsResponse.mk total_customers active_customers
                avg_clv retention_rate top_customers)))
    internal_server_error.

(** [GET /api/v1/analytics/products] *)
Definition get_product_analytics (env : environment)
  (category : option string)
  : M (response ProductPerformanceResponse.t) :=
  try_except
    (let where_clause := category_clause category in
     total_products <-
       execute_where env where_clause Query.total_products_query ;;
     top_products <-
       execute_where env where_clause Query.performing_products_query ;;
     rows <- execute env Query.category_query ;;
     let category_performance := to_dict rows in
     let inventory_insights :=
       InventoryInsights.mk
         (List.length category_performance)
         (Py.max_key category_performance)
         (Py.min_key category_performance) in
     ret (Ok (ProductPerformanceResponse.mk total_products top_products
                category_performance inventory_insights)))
    internal_server_error.

(** [POST /api/v1/data/seed] *)
Definition seed_sample_data (env : environment)
  : M (response SeedResponse.t) :=
  try_except
    (existing_count <- execute env Query.count_transactions ;;
     if (0 <? existing_count)%nat then
       ret (Ok (SeedResponse.mk
                  ("Database already contains " ++ Py.str_of_nat existing_count
                   ++ " transactions")))
     else
       ret (Ok (SeedResponse.mk
                  "Sample data seeding endpoint - implement based on business requirements")))
    internal_server_error.

(** ** Vocabulary of the properties *)

(** The calendar day a transaction is dated on. *)
Definition day_of (r : SalesTransaction.t) : Calendar.date :=
  Calendar.on_date (SalesTransaction.transaction_date r).

(** A text parameter that stays inside its quotes, or is absent. *)
Definition plain_param (o : option string) : bool :=
  match o with
  | Some s => Sql.plain s
  | None => true
  end.

Definition valid_param (o : option Calendar.date) : bool :=
  match o with
  | Some d => Calendar.date_valid d
  | None => true
  end.

(** Whether a clause selects a row, when it is a predicate on rows. *)
Definition selects (w : clause) (r : SalesTransaction.t) : option bool :=
  match w with
  | Rows p => Some (p r)
  | _ => None
  end.

(** A region or channel filter as a request states it: a present, non-empty
    parameter asks for that exact value. *)
Definition wanted (param : option string) (v : string) : bool :=
  match param with
  | Some s => String.eqb s "" || String.eqb v s
  | None => true
  end.

(** The rows a sales request asks about, given its resolved date range. *)
Definition selected (start_date end_date : Calendar.date)
  (region channel : option string) (r : SalesTransaction.t) : bool :=
  Sql.text_ge (stored_date r) (Calendar.isoformat start_date)
  && Sql.text_le (stored_date r) (Calendar.isoformat end_date)
  && wanted region (SalesTransaction.region r)
  && wanted channel (SalesTransaction.channel r).

(** Sum of a column over the rows of a table that satisfy a predicate, and
    the number of those rows. *)
Fixpoint sum_where {A : Type} (p : A -> bool) (f : A -> Q) (l : list A) : Q :=
  match l with
  | [] => 0%Q
  | a :: rest => if p a then (f a + sum_where p f rest)%Q else sum_where p f rest
  end.


Fixpoint count_where {A : Type} (p : A -> bool) (l : list A) : nat :=
  match l with
  | [] => O
  | a :: rest => if p a then S (count_where p rest) else count_where p rest
  end.

(** The storage layer fails none of the next [n] statements. *)
Definition no_fault (env : environment) (s : session) (n : nat) : Prop :=
  forall k, (k < n)%nat -> fails env (k + executed s) = false.

(** The session after [n] more statements. *)
Definition after (n : nat) (s : session) : session := Nat.iter n tick s.

(** The body of an answer, if the handler answered with one. *)
Definition body_of {A : Type} (o : outcome (response A)) : option A :=
  match o with
  | Done (Ok b) _ => Some b
  | _ => None
  end.

Definition comparison_eqb (a b : comparison) : bool :=
  match a, b with
  | Eq, Eq | Lt, Lt | Gt, Gt => true
  | _, _ => false
  end.

(** A region or channel filter read as a statement about a row: a present,
    non-empty parameter is the row's value. *)
Definition exact_when_given (param : option string) (v : string) : Prop :=
  forall s, param = Some s -> s <> "" -> v = s.

(** The filter as the specification words it: the day within
    [[start_date, end_date]], and a present parameter equal to the row's
    value. *)
Definition stated_filter (start_date end_date : Calendar.date)
  (region channel : option string) (r : SalesTransaction.t) : Prop :=
  Calendar.date_le start_date (day_of r) /\
  Calendar.date_le (day_of r) end_date /\
  (forall v, region = Some v -> SalesTransaction.region r = v) /\
  (forall v, channel = Some v -> SalesTransaction.channel r = v).


(** ** A fixture: three transactions, two online in the US, one in a store
    in the EU *)

Module Fixture.

Definition at_time (y m d h : N) : Calendar.datetime :=
  Calendar.mkdatetime (Calendar.mkdate y m d) h 0 0 0.

Definition sale (n : Z) (product name category : string) (quantity : Z)
  (amount : Q) (date : Calendar.datetime) (region channel : string)
  : SalesTransaction.t :=
  SalesTransaction.mk n "txn" "cust" product name category quantity
    (amount / inject_Z quantity)%Q amount date region channel date.

Definition widget_jan10 : SalesTransaction.t :=
  sale 1 "p1" "Widget" "Tools" 2 100 (at_time 2024 1 10 9) "US" "online".

Definition gadget_jan20 : SalesTransaction.t :=
  sale 2 "p2" "Gadget" "Toys" 1 50 (at_time 2024 1 20 14) "US" "online".

Definition widget_jan31 : SalesTransaction.t :=
  sale 3 "p1" "Widget" "Tools" 3 50 (at_time 2024 1 31 0) "EU" "store".

Definition customer (n : Z) (name : string) (clv : Q) (active : bool)
  : CustomerMetrics.t :=
  CustomerMetrics.mk n name 1 clv clv (at_time 2024 1 5 0) clv active
    (at_time 2023 6 1 0) (at_time 2024 1 5 0).

Definition db : database :=
  mkdb [widget_jan10; gadget_jan20; widget_jan31]
       [customer 1 "a" 10 true; customer 2 "b" 20 false; customer 3 "c" 30 true].

Definition empty_db : database := mkdb [] [].

(** A store that fails nothing, on 2024-01-31. *)
Definition env : environment :=
  mkenv (fun _ => false) (Calendar.mkdate 2024 1 31) (at_time 2024 1 31 12) None.

(** A store that fails every statement. *)
Definition env_down : environment :=
  mkenv (fun _ => true) (Calendar.mkdate 2024 1 31) (at_time 2024 1 31 12) None.

(** A store that fails the third statement of a request and no other. *)
Definition env_flaky : environment :=
  mkenv (fun k => Nat.eqb k 2) (Calendar.mkdate 2024 1 31)
        (at_time 2024 1 31 12) None.

Definition start : session := mksession db O.

Definition jan1 : Calendar.date := Calendar.mkdate 2024 1 1.
Definition jan31 : Calendar.date := Calendar.mkdate 2024 1 31.
Definition feb1 : Calendar.date := Calendar.mkdate 2024 2 1.


End Fixture.

(** The two fields of a product answer that C10 is about, if there is an
    answer. *)
Definition performance_fields
  (o : outcome (response ProductPerformanceResponse.t))
  : option (Py.dict Q * InventoryInsights.t) :=
  match body_of o with
  | Some b => Some (ProductPerformanceResponse.category_performance b,
                    ProductPerformanceResponse.inventory_insights b)
  | None => None
  end.




(** Descending order of a key. *)
Definition descending {A : Type} (key : A -> Q) (x y : A) : Prop :=
  (key y <= key x)%Q.

(** ** Vocabulary of the further properties *)

(** Revenue of the rows that carry a value in a text column. *)
Definition revenue_where (col : SalesTransaction.t -> string) (v : string)
  (rows : list SalesTransaction.t) : Q :=
  sum_where (fun r => String.eqb (col r) v) SalesTransaction.total_amount rows.

(** The days a date has before it, counted up to 31: what decides whether
    [d - timedelta(days=30)] exists. *)
Definition headroom (d : Calendar.date) : N :=
  if (Calendar.year d =? 1) && (Calendar.month d =? 1) then Calendar.day d
  else 31.

(** The entry of a customer in [top_customers]. *)
Definition customer_entry (r : CustomerMetrics.t) : TopCustomer.t :=
  TopCustomer.mk (CustomerMetrics.customer_id r) (CustomerMetrics.total_spent r)
    (CustomerMetrics.total_orders r) (CustomerMetrics.customer_lifetime_value r).

(** The rows the product aggregation counts and ranks for a category. *)
Definition in_category (category : option string) (r : SalesTransaction.t)
  : bool :=
  wanted category (SalesTransaction.category r).





(** What the fixture answers for all sales up to 2024-02-01. *)
Module Sample.



End Sample.

(** * Properties *)

(** ** Order of texts *)

Lemma ascii_compare_refl (a : ascii) : Ascii.compare a a = Eq.
Proof. apply N.compare_refl. Qed.

Lemma string_compare_refl (s : string) : String.compare s s = Eq.
Proof.
  induction s as [|c s IH]; simpl; [reflexivity|].
  now rewrite ascii_compare_refl.
Qed.

Lemma append_empty_r (s : string) : s ++ "" = s.
Proof. induction s as [|c s IH]; simpl; [reflexivity | now rewrite IH]. Qed.

Lemma length_append (a b : string) :
  String.length (a ++ b) = (String.length a + String.length b)%nat.
Proof. induction a as [|c a IH]; simpl; [reflexivity | now rewrite IH]. Qed.

(** Texts that start with blocks of one width compare block by block. *)
Lemma string_compare_app (a a' b b' : string) :
  String.length a = String.length a' ->
  String.compare (a ++ b) (a' ++ b') =
  match String.compare a a' with
  | Eq => String.compare b b'
  | c => c
  end.
Proof.
  revert a'. induction a as [|c a IH]; intros [|c' a'] H; simpl in *;
    try discriminate; [reflexivity|].
  destruct (Ascii.compare c c'); try reflexivity.
  apply IH. congruence.
Qed.

Lemma string_compare_longer (a a' b : string) (c : ascii) :
  String.length a = String.length a' ->
  String.compare (a ++ String c b) a' =
  match String.compare a a' with
  | Eq => Gt
  | o => o
  end.
Proof.
  intros H. rewrite <- (append_empty_r a') at 1.
  rewrite string_compare_app by exact H. reflexivity.
Qed.




(** ** Dates and their text forms *)

Lemma pad2_compare_table :
  forallb (fun a =>
    forallb (fun b =>
      comparison_eqb (String.compare (Calendar.pad2 a) (Calendar.pad2 b))
                     (N.compare a b))
      (map N.of_nat (seq 0 100)))
    (map N.of_nat (seq 0 100)) = true.
Proof. vm_compute. reflexivity. Qed.

Lemma below_100_listed (a : N) : a < 100 -> In a (map N.of_nat (seq 0 100)).
Proof.
  intros H. rewrite <- (N2Nat.id a). apply in_map. apply in_seq. lia.
Qed.

Lemma comparison_eqb_eq (a b : comparison) : comparison_eqb a b = true -> a = b.
Proof. destruct a, b; simpl; congruence. Qed.

(** Two-digit fields are ordered as the numbers they print. *)
Lemma pad2_compare (a b : N) :
  a < 100 -> b < 100 ->
  String.compare (Calendar.pad2 a) (Calendar.pad2 b) = N.compare a b.
Proof.
  intros Ha Hb. pose proof pad2_compare_table as T.
  rewrite forallb_forall in T. specialize (T a (below_100_listed a Ha)).
  rewrite forallb_forall in T. specialize (T b (below_100_listed b Hb)).
  now apply comparison_eqb_eq.
Qed.

Lemma pad2_length (n : N) : String.length (Calendar.pad2 n) = 2%nat.
Proof. reflexivity. Qed.

Lemma pad4_length (n : N) : String.length (Calendar.pad4 n) = 4%nat.
Proof. unfold Calendar.pad4. now rewrite length_append, !pad2_length. Qed.

Lemma compare_hundreds (qa ra qb rb : N) :
  ra < 100 -> rb < 100 ->
  match qa ?= qb with
  | Eq => ra ?= rb
  | c => c
  end = (100 * qa + ra ?= 100 * qb + rb).
Proof.
  intros Ha Hb.
  destruct (N.compare_spec qa qb) as [E|E|E];
    destruct (N.compare_spec ra rb) as [F|F|F]; symmetry;
    first [ apply N.compare_eq_iff; lia
          | change (100 * qa + ra < 100 * qb + rb); lia
          | change (100 * qa + ra > 100 * qb + rb); lia ].
Qed.

Lemma pad4_compare (a b : N) :
  a < 10000 -> b < 10000 ->
  String.compare (Calendar.pad4 a) (Calendar.pad4 b) = N.compare a b.
Proof.
  intros Ha Hb. unfold Calendar.pad4.
  rewrite string_compare_app by now rewrite !pad2_length.
  assert (a / 100 < 100) by (apply N.Div0.div_lt_upper_bound; lia).
  assert (b / 100 < 100) by (apply N.Div0.div_lt_upper_bound; lia).
  assert (a mod 100 < 100) by (apply N.mod_upper_bound; lia).
  assert (b mod 100 < 100) by (apply N.mod_upper_bound; lia).
  rewrite !pad2_compare by assumption.
  rewrite compare_hundreds by assumption.
  now rewrite <- !N.div_mod by lia.
Qed.

Lemma date_valid_bounds (d : Calendar.date) :
  Calendar.date_valid d = true ->
  1 <= Calendar.year d <= 9999 /\ 1 <= Calendar.month d <= 12 /\
  1 <= Calendar.day d <= Calendar.days_in_month (Calendar.year d) (Calendar.month d).
Proof.
  unfold Calendar.date_valid. rewrite !andb_true_iff, !N.leb_le. tauto.
Qed.

Lemma days_in_month_bounds (y m : N) :
  1 <= m <= 12 -> 28 <= Calendar.days_in_month y m <= 31.
Proof.
  intros H.
  assert (m = 1 \/ m = 2 \/ m = 3 \/ m = 4 \/ m = 5 \/ m = 6 \/ m = 7 \/
          m = 8 \/ m = 9 \/ m = 10 \/ m = 11 \/ m = 12) as C by lia.
  unfold Calendar.days_in_month.
  repeat (destruct C as [C|C]; [subst m; try destruct (Calendar.is_leap y); lia|]).
  subst m. lia.
Qed.

Lemma isoformat_length (d : Calendar.date) :
  String.length (Calendar.isoformat d) = 10%nat.
Proof.
  unfold Calendar.isoformat.
  now rewrite !length_append, pad4_length, !pad2_length.
Qed.

(** ISO dates are ordered as the dates they print. *)
Lemma isoformat_compare (a b : Calendar.date) :
  Calendar.date_valid a = true -> Calendar.date_valid b = true ->
  String.compare (Calendar.isoformat a) (Calendar.isoformat b)
  = Calendar.date_compare a b.
Proof.
  intros Va Vb.
  destruct (date_valid_bounds a Va) as (Ya & Ma & Da).
  destruct (date_valid_bounds b Vb) as (Yb & Mb & Db).
  pose proof (days_in_month_bounds (Calendar.year a) _ Ma).
  pose proof (days_in_month_bounds (Calendar.year b) _ Mb).
  unfold Calendar.isoformat, Calendar.date_compare.
  rewrite string_compare_app by now rewrite !pad4_length.
  rewrite pad4_compare by lia.
  destruct (Calendar.year a ?= Calendar.year b); try reflexivity.
  change ("-" ++ ?x) with (String "-" x). cbn [String.compare].
  rewrite ascii_compare_refl.
  rewrite string_compare_app by now rewrite !pad2_length.
  rewrite pad2_compare by lia.
  destruct (Calendar.month a ?= Calendar.month b); try reflexivity.
  change ("-" ++ ?x) with (String "-" x). cbn [String.compare].
  rewrite ascii_compare_refl.
  apply pad2_compare; lia.
Qed.

(** A stored timestamp against an ISO date: the day decides, and on the same
    day the longer text, the timestamp, is the greater. *)
Lemma storage_text_compare (t : Calendar.datetime) (d : Calendar.date) :
  Calendar.datetime_valid t = true -> Calendar.date_valid d = true ->
  String.compare (Calendar.storage_text t) (Calendar.isoformat d)
  = match Calendar.date_compare (Calendar.on_date t) d with
    | Eq => Gt
    | c => c
    end.
Proof.
  intros Vt Vd. unfold Calendar.datetime_valid in Vt.
  rewrite !andb_true_iff in Vt. destruct Vt as ((((Vt & _) & _) & _) & _).
  unfold Calendar.storage_text.
  change (" " ++ ?x) with (String " " x).
  rewrite string_compare_longer by now rewrite !isoformat_length.
  now rewrite isoformat_compare.
Qed.

Lemma date_compare_antisym (a b : Calendar.date) :
  Calendar.date_compare a b = CompOpp (Calendar.date_compare b a).
Proof.
  unfold Calendar.date_compare.
  rewrite (N.compare_antisym (Calendar.year b)), (N.compare_antisym (Calendar.month b)),
    (N.compare_antisym (Calendar.day b)).
  destruct (Calendar.year b ?= Calendar.year a); simpl; try reflexivity.
  destruct (Calendar.month b ?= Calendar.month a); reflexivity.
Qed.

(** The lower bound of the range: the row's day is [d] or later. *)
Lemma text_ge_day (r : SalesTransaction.t) (d : Calendar.date) :
  Calendar.datetime_valid (SalesTransaction.transaction_date r) = true ->
  Calendar.date_valid d = true ->
  Sql.text_ge (stored_date r) (Calendar.isoformat d) = true
  <-> Calendar.date_le d (day_of r).
Proof.
  intros Vt Vd. unfold Sql.text_ge, stored_date, Calendar.date_le, day_of.
  rewrite storage_text_compare by assumption.
  rewrite (date_compare_antisym d).
  destruct (Calendar.date_compare _ d); simpl; split; congruence.
Qed.

(** The upper bound of the range: the row's day is before [d]. *)
Lemma text_le_day (r : SalesTransaction.t) (d : Calendar.date) :
  Calendar.datetime_valid (SalesTransaction.transaction_date r) = true ->
  Calendar.date_valid d = true ->
  Sql.text_le (stored_date r) (Calendar.isoformat d) = true
  <-> Calendar.date_lt (day_of r) d.
Proof.
  intros Vt Vd. unfold Sql.text_le, stored_date, Calendar.date_lt, day_of.
  rewrite storage_text_compare by assumption.
  destruct (Calendar.date_compare _ d); simpl; split; congruence.
Qed.

Lemma date_valid_intro (y m d : N) :
  1 <= y <= 9999 -> 1 <= m <= 12 -> 1 <= d <= Calendar.days_in_month y m ->
  Calendar.date_valid (Calendar.mkdate y m d) = true.
Proof.
  intros. unfold Calendar.date_valid; cbn [Calendar.year Calendar.month Calendar.day].
  rewrite !andb_true_iff, !N.leb_le. tauto.
Qed.

(** The day before a date is a date. *)
Lemma yesterday_valid (d p : Calendar.date) :
  Calendar.date_valid d = true -> Calendar.yesterday d = Some p ->
  Calendar.date_valid p = true.
Proof.
  intros V. destruct (date_valid_bounds d V) as (Y & Mo & D).
  unfold Calendar.yesterday.
  destruct (N.ltb_spec 1 (Calendar.day d)) as [H1|H1].
  { intros [= <-]. apply date_valid_intro; lia. }
  destruct (N.ltb_spec 1 (Calendar.month d)) as [H2|H2].
  { intros [= <-].
    pose proof (days_in_month_bounds (Calendar.year d) (Calendar.month d - 1)
                  ltac:(lia)).
    apply date_valid_intro; lia. }
  destruct (N.ltb_spec 1 (Calendar.year d)) as [H3|H3]; [|discriminate].
  intros [= <-]. apply date_valid_intro; try lia.
  cbn. lia.
Qed.

Lemma minus_days_valid (n : nat) (d p : Calendar.date) :
  Calendar.date_valid d = true -> Calendar.minus_days d n = Some p ->
  Calendar.date_valid p = true.
Proof.
  revert d. induction n as [|n IH]; intros d V; simpl.
  - now intros [= <-].
  - destruct (Calendar.yesterday d) as [q|] eqn:E; [|discriminate].
    apply IH. now apply (yesterday_valid d).
Qed.

(** ** Spliced parameters *)

Lemma splice_plain (s : string) :
  Sql.plain s = true -> Sql.splice s = Sql.Literal s.
Proof.
  induction s as [|c s IH]; simpl; [reflexivity|].
  rewrite andb_true_iff. intros [Hc Hs]. now rewrite Hc, (IH Hs).
Qed.

Lemma splice_literal (s v : string) :
  Sql.splice s = Sql.Literal v -> v = s /\ Sql.plain s = true.
Proof.
  revert v. induction s as [|c s IH]; simpl; intros v.
  - intros [= <-]. now split.
  - destruct (Sql.plain_char c).
    + destruct (Sql.splice s) as [l| |]; try discriminate.
      intros [= <-]. destruct (IH l eq_refl) as [-> ->]. now split.
    + destruct (Ascii.eqb c "'" && String.eqb s ""); discriminate.
Qed.

Lemma column_eq_rows (col : SalesTransaction.t -> string) (raw : string)
  (q : SalesTransaction.t -> bool) :
  column_eq col raw = Rows q ->
  Sql.plain raw = true /\ forall r, q r = String.eqb (col r) raw.
Proof.
  unfold column_eq. destruct (Sql.splice raw) as [v| |] eqn:E; try discriminate.
  intros [= <-]. destruct (splice_literal raw v E) as [-> P]. now split.
Qed.

Lemma column_eq_plain (col : SalesTransaction.t -> string) (raw : string) :
  Sql.plain raw = true ->
  column_eq col raw = Rows (fun r => String.eqb (col r) raw).
Proof. intros P. unfold column_eq. now rewrite (splice_plain raw P). Qed.

Lemma join_and_cons (c : condition) (rest : list condition)
  (p : SalesTransaction.t -> bool) :
  join_and (c :: rest) = Rows p ->
  exists p1 q, condition_clause c = Rows p1 /\ join_and rest = Rows q /\
               forall r, p r = p1 r && q r.
Proof.
  cbn [join_and]. destruct (condition_clause c) as [p1| |].
  - destruct (join_and rest) as [q| |]; try discriminate.
    intros [= <-]. now exists p1, q.
  - destruct rest; discriminate.
  - discriminate.
Qed.

Lemma truthy_some (raw : string) :
  Py.truthy (Some raw) = negb (String.eqb raw "").
Proof. reflexivity. Qed.

(** The conditions a parameter adds, and the test they stand for. *)
Lemma optional_condition (mk : string -> condition)
  (col : SalesTransaction.t -> string) (param : option string)
  (rest : list condition) (p : SalesTransaction.t -> bool) :
  (forall raw, condition_clause (mk raw) = column_eq col raw) ->
  join_and ((match param with
             | Some raw => if Py.truthy param then [mk raw] else []
             | None => []
             end) ++ rest)%list = Rows p ->
  exists q, join_and rest = Rows q /\
            forall r, p r = wanted param (col r) && q r.
Proof.
  intros Hmk. destruct param as [raw|]; cbn [app wanted].
  - rewrite truthy_some. destruct (String.eqb raw ""); cbn [negb app orb].
    + intros H. now exists p.
    + intros H. apply join_and_cons in H. destruct H as (p1 & q & H1 & H2 & H3).
      rewrite Hmk in H1. apply column_eq_rows in H1. destruct H1 as [_ H1].
      exists q. split; [exact H2|]. intros r. now rewrite H3, H1.
  - intros H. now exists p.
Qed.

(** When the statement is the handler's, its WHERE clause selects the rows
    the request asks about. *)
Lemma conditions_selected (start_date end_date : Calendar.date)
  (region channel : option string) (p : SalesTransaction.t -> bool) :
  join_and (conditions start_date end_date region channel) = Rows p ->
  forall r, p r = selected start_date end_date region channel r.
Proof.
  unfold conditions. cbn [app]. intros H.
  apply join_and_cons in H. destruct H as (p1 & q1 & H1 & H & E1).
  apply join_and_cons in H. destruct H as (p2 & q2 & H2 & H & E2).
  apply (optional_condition region_eq SalesTransaction.region) in H;
    [|reflexivity].
  destruct H as (q3 & H & E3).
  rewrite <- (app_nil_r (match channel with Some _ => _ | None => _ end)) in H.
  apply (optional_condition channel_eq SalesTransaction.channel) in H;
    [|reflexivity].
  destruct H as (q4 & H & E4). cbn in H. injection H as <-.
  cbn in H1, H2. injection H1 as <-. injection H2 as <-.
  intros r. rewrite E1, E2, E3, E4. unfold selected.
  rewrite andb_true_r, !andb_assoc. reflexivity.
Qed.

Lemma conditions_plain (start_date end_date : Calendar.date)
  (region channel : option string) :
  plain_param region = true -> plain_param channel = true ->
  exists p, join_and (conditions start_date end_date region channel) = Rows p.
Proof.
  intros Pr Pc. unfold conditions. cbn [app join_and condition_clause].
  destruct region as [rg|], channel as [ch|]; cbn [plain_param] in Pr, Pc;
    rewrite ?truthy_some;
    try destruct (String.eqb rg ""); try destruct (String.eqb ch "");
    cbn [negb app join_and condition_clause];
    rewrite ?(column_eq_plain _ rg Pr), ?(column_eq_plain _ ch Pc);
    eexists; reflexivity.
Qed.

(** ** Aggregates *)

Lemma total_filter {A : Type} (p : A -> bool) (f : A -> Q) (l : list A) :
  Sql.total (map f (filter p l)) = sum_where p f l.
Proof.
  induction l as [|a l IH]; simpl; [reflexivity|].
  destruct (p a); simpl; now rewrite IH.
Qed.


Lemma length_filter {A : Type} (p : A -> bool) (l : list A) :
  List.length (filter p l) = count_where p l.
Proof.
  induction l as [|a l IH]; simpl; [reflexivity|].
  destruct (p a); simpl; now rewrite IH.
Qed.





(** ** Running a handler *)

Lemma bind_done {A B : Type} (c : M A) (k : A -> M B) (s s' : session) (b : B) :
  bind c k s = Done b s' ->
  exists a s1, c s = Done a s1 /\ k a s1 = Done b s'.
Proof.
  unfold bind. destruct (c s) as [a s1| |]; try discriminate.
  intros H. now exists a, s1.
Qed.

Lemma try_except_ok {A : Type} (body : M (response A)) (s s' : session) (b : A) :
  try_except body internal_server_error s = Done (Ok b) s' ->
  body s = Done (Ok b) s'.
Proof.
  unfold try_except. destruct (body s) as [a s1|s1|]; try discriminate.
  now intros H.
Qed.

Lemma execute_done {A : Type} (env : environment) (q : database -> A)
  (s s' : session) (a : A) :
  execute env q s = Done a s' ->
  fails env (executed s) = false /\ a = q (store s) /\ s' = tick s.
Proof.
  unfold execute. destruct (fails env (executed s)); try discriminate.
  intros [= <- <-]. now repeat split.
Qed.

Lemma execute_where_done {A : Type} (env : environment) (w : clause)
  (q : (SalesTransaction.t -> bool) -> database -> A) (s s' : session) (a : A) :
  execute_where env w q s = Done a s' ->
  fails env (executed s) = false /\
  exists p, w = Rows p /\ a = q p (store s) /\ s' = tick s.
Proof.
  unfold execute_where. destruct (fails env (executed s)); try discriminate.
  destruct w as [p| |]; try discriminate.
  intros [= <- <-]. split; [reflexivity|]. now exists p.
Qed.

Lemma default_start_done (sd : option Calendar.date) (e d : Calendar.date)
  (s s' : session) :
  default_start sd e s = Done d s' ->
  s' = s /\ match sd with
            | Some x => d = x
            | None => Calendar.minus_days e 30 = Some d
            end.
Proof.
  unfold default_start. destruct sd as [x|].
  - intros [= <- <-]. now split.
  - destruct (Calendar.minus_days e 30) as [x|]; [|discriminate].
    intros [= <- <-]. now split.
Qed.

Lemma no_fault_step (env : environment) (s : session) (n : nat) :
  no_fault env s (S n) ->
  fails env (executed s) = false /\ no_fault env (tick s) n.
Proof.
  intros H. split.
  - apply (H O). lia.
  - intros k Hk. cbn [tick executed].
    replace (k + S (executed s))%nat with (S k + executed s)%nat by lia.
    apply H. lia.
Qed.

Lemma execute_run {A : Type} (env : environment) (q : database -> A)
  (s : session) :
  fails env (executed s) = false -> execute env q s = Done (q (store s)) (tick s).
Proof. intros H. unfold execute. now rewrite H. Qed.

Lemma execute_where_run {A : Type} (env : environment)
  (p : SalesTransaction.t -> bool)
  (q : (SalesTransaction.t -> bool) -> database -> A) (s : session) :
  fails env (executed s) = false ->
  execute_where env (Rows p) q s = Done (q p (store s)) (tick s).
Proof. intros H. unfold execute_where. now rewrite H. Qed.


Lemma sales_run (env : environment) (sd ed : option Calendar.date)
  (rg ch : option string) (s : session) (start_date : Calendar.date)
  (p : SalesTransaction.t -> bool) :
  default_start sd (default_end env ed) s = Done start_date s ->
  join_and (conditions start_date (default_end env ed) rg ch) = Rows p ->
  no_fault env s 4 ->
  get_sales_analytics env sd ed rg ch s =
  Done (Ok (SalesMetricsResponse.mk
          (Py.or_zero (fst (fst (Query.revenue_query p (store s)))))
          (snd (fst (Query.revenue_query p (store s))))
          (Py.or_zero (snd (Query.revenue_query p (store s))))
          (map (fun row => SellingProduct.mk (fst (fst row)) (snd (fst row))
                                             (snd row))
               (Query.top_products_query p (store s)))
          (to_dict (Query.region_query p (store s)))
          (to_dict (Query.channel_query p (store s)))))
       (after 4 s).
Proof.
  intros H0 Hp F.
  apply no_fault_step in F. destruct F as [F0 F].
  apply no_fault_step in F. destruct F as [F1 F].
  apply no_fault_step in F. destruct F as [F2 F].
  apply no_fault_step in F. destruct F as [F3 _].
  unfold get_sales_analytics, try_except, bind. rewrite H0, Hp.
  rewrite (execute_where_run env p _ s F0).
  rewrite (execute_where_run env p _ _ F1).
  rewrite (execute_where_run env p _ _ F2).
  rewrite (execute_where_run env p _ _ F3).
  reflexivity.
Qed.

(** ** The sales aggregation *)



Lemma wanted_spec (param : option string) (v : string) :
  wanted param v = true <-> exact_when_given param v.
Proof.
  unfold wanted, exact_when_given. destruct param as [s|].
  - rewrite orb_true_iff, !String.eqb_eq. split.
    + intros [E|E] x [= <-] N; [contradiction | exact E].
    + intros H. destruct (String.eqb_spec s ""); [now left | right].
      now apply H.
  - split; [intros _ x; discriminate | reflexivity].
Qed.

Lemma date_lt_le (a b : Calendar.date) :
  Calendar.date_lt a b -> Calendar.date_le a b.
Proof. unfold Calendar.date_lt, Calendar.date_le. congruence. Qed.

(** C2, as the code has it. For a request with valid dates whose region and
    channel stay inside their quotes: an omitted [end_date] is today and an
    omitted [start_date] is [end_date] minus 30 days (when that date
    exists); the WHERE clause selects a row only if its day lies in
    [[start_date, end_date]] and each present, non-empty region or channel
    parameter is exactly the row's value; and it selects every such row
    dated before [end_date]. *)
Theorem sales_filter_selects :
  forall env sd ed rg ch s start_date,
    valid_param sd = true -> valid_param ed = true ->
    Calendar.date_valid (today env) = true ->
    plain_param rg = true -> plain_param ch = true ->
    default_start sd (default_end env ed) s = Done start_date s ->
    let end_date := default_end env ed in
    (ed = None -> end_date = today env) /\
    (forall d, ed = Some d -> end_date = d) /\
    (sd = None -> Calendar.minus_days end_date 30 = Some start_date) /\
    (forall d, sd = Some d -> start_date = d) /\
    exists p,
      join_and (conditions start_date end_date rg ch) = Rows p /\
      forall r,
        Calendar.datetime_valid (SalesTransaction.transaction_date r) = true ->
        (p r = true ->
           Calendar.date_le start_date (day_of r) /\
           Calendar.date_le (day_of r) end_date /\
           exact_when_given rg (SalesTransaction.region r) /\
           exact_when_given ch (SalesTransaction.channel r)) /\
        (Calendar.date_le start_date (day_of r) ->
         Calendar.date_lt (day_of r) end_date ->
         exact_when_given rg (SalesTransaction.region r) ->
         exact_when_given ch (SalesTransaction.channel r) ->
         p r = true).
Proof.
  intros env sd ed rg ch s start_date Vs Ve Vt Pr Pc H0 end_date.
  assert (Calendar.date_valid end_date = true) as Vend.
  { subst end_date. destruct ed; [exact Ve | exact Vt]. }
  apply default_start_done in H0. destruct H0 as [_ H0].
  assert (Calendar.date_valid start_date = true) as Vstart.
  { destruct sd as [d|]; [now subst | now apply (minus_days_valid 30 end_date)]. }
  split; [now intros ->|]. split; [now intros d ->|].
  split; [intros ->; exact H0|]. split; [now intros d ->|].
  destruct (conditions_plain start_date end_date rg ch Pr Pc) as [p Hp].
  exists p. split; [exact Hp|]. intros r Vr.
  rewrite (conditions_selected _ _ _ _ _ Hp r). unfold selected.
  rewrite !andb_true_iff, (text_ge_day r start_date Vr Vstart),
    (text_le_day r end_date Vr Vend), !wanted_spec.
  split.
  - intros [[[A B] C] D]. auto using date_lt_le.
  - intros A B C D. auto.
Qed.

Lemma sales_filter_selects_witness :
  default_start None (default_end Fixture.env None) Fixture.start
    = Done Fixture.jan1 Fixture.start /\
  exists p,
    join_and (conditions Fixture.jan1 Fixture.jan31 (Some "US") (Some "")) = Rows p /\
    p Fixture.widget_jan10 = true.
Proof.
  assert (default_start None (default_end Fixture.env None) Fixture.start
          = Done Fixture.jan1 Fixture.start) as H by reflexivity.
  split; [exact H|].
  destruct (sales_filter_selects Fixture.env None None (Some "US") (Some "")
              Fixture.start Fixture.jan1 eq_refl eq_refl eq_refl eq_refl eq_refl H)
    as (_ & _ & _ & _ & p & Hp & Hr).
  exists p. split; [exact Hp|].
  apply (Hr Fixture.widget_jan10 eq_refl).
  - vm_compute. discriminate.
  - vm_compute. reflexivity.
  - intros v [= <-] _. reflexivity.
  - intros v [= <-] N. now contradiction N.
Defined.

(** C2, as stated, fails twice on the fixture: a present but empty [region]
    selects a row of region US, and a row dated on [end_date] itself is not
    selected. *)
Lemma sales_filter_as_stated_fails :
  (selects (join_and (conditions Fixture.jan1 Fixture.feb1 (Some "") None))
     Fixture.widget_jan10 = Some true /\
   ~ stated_filter Fixture.jan1 Fixture.feb1 (Some "") None Fixture.widget_jan10)
  /\
  (selects (join_and (conditions Fixture.jan1 Fixture.jan31 None None))
     Fixture.widget_jan31 = Some false /\
   stated_filter Fixture.jan1 Fixture.jan31 None None Fixture.widget_jan31).
Proof.
  split; split.
  - vm_compute. reflexivity.
  - intros (_ & _ & R & _). specialize (R "" eq_refl). discriminate R.
  - vm_compute. reflexivity.
  - repeat split; try (vm_compute; discriminate); intros v; discriminate.
Qed.










(** ** Grouping and ordering *)

Section Distinct.
Context {K : Type} (eqb : K -> K -> bool).
Hypothesis eqb_eq : forall a b, eqb a b = true <-> a = b.

Lemma distinct_In (l : list K) (k : K) : In k (Sql.distinct eqb l) <-> In k l.
Proof.
  induction l as [|x l IH]; simpl; [tauto|].
  rewrite filter_In, IH, negb_true_iff. split.
  - intros [E|[H _]]; auto.
  - intros [E|H]; [now left|].
    destruct (eqb x k) eqn:E; [left; now apply eqb_eq | right; now split].
Qed.

Lemma distinct_NoDup (l : list K) : NoDup (Sql.distinct eqb l).
Proof.
  induction l as [|x l IH]; simpl; constructor.
  - rewrite filter_In, negb_true_iff. intros [_ E].
    assert (eqb x x = true) as R by now apply eqb_eq. congruence.
  - now apply NoDup_filter.
Qed.

End Distinct.


Section Ordered.
Context {A : Type} (key : A -> Q).

Lemma insert_desc_perm (a : A) (l : list A) :
  Permutation (Sql.insert_desc key a l) (a :: l).
Proof.
  induction l as [|b l IH]; simpl; [reflexivity|].
  destruct (Qle_bool (key b) (key a)); [reflexivity|].
  rewrite IH. apply perm_swap.
Qed.

Lemma order_by_desc_perm (l : list A) : Permutation (Sql.order_by_desc key l) l.
Proof.
  induction l as [|a l IH]; simpl; [reflexivity|].
  rewrite insert_desc_perm. now constructor.
Qed.

Lemma insert_desc_sorted (a : A) (l : list A) :
  StronglySorted (descending key) l ->
  StronglySorted (descending key) (Sql.insert_desc key a l).
Proof.
  induction 1 as [|b l S IH F]; simpl.
  - repeat constructor.
  - destruct (Qle_bool (key b) (key a)) eqn:E.
    + apply Qle_bool_iff in E. constructor; [now constructor|].
      constructor; [exact E|].
      rewrite Forall_forall in *. intros x Hx. unfold descending in *.
      apply Qle_trans with (key b); auto.
    + constructor; [exact IH|].
      apply (Permutation_Forall (Permutation_sym (insert_desc_perm a l))).
      constructor; [|exact F]. unfold descending.
      apply Qlt_le_weak, Qnot_le_lt. rewrite <- Qle_bool_iff. congruence.
Qed.

Lemma order_by_desc_sorted (l : list A) :
  StronglySorted (descending key) (Sql.order_by_desc key l).
Proof.
  induction l as [|a l IH]; simpl; [constructor | now apply insert_desc_sorted].
Qed.

End Ordered.

Lemma insert_desc_map {A B : Type} (h : A -> B) (key : B -> Q) (a : A)
  (l : list A) :
  Sql.insert_desc key (h a) (map h l)
  = map h (Sql.insert_desc (fun x => key (h x)) a l).
Proof.
  induction l as [|b l IH]; simpl; [reflexivity|].
  destruct (Qle_bool (key (h b)) (key (h a))); simpl; [reflexivity|].
  now rewrite IH.
Qed.

Lemma order_by_desc_map {A B : Type} (h : A -> B) (key : B -> Q) (l : list A) :
  Sql.order_by_desc key (map h l)
  = map h (Sql.order_by_desc (fun x => key (h x)) l).
Proof.
  induction l as [|a l IH]; simpl; [reflexivity|].
  now rewrite IH, insert_desc_map.
Qed.

Lemma sorted_app_dominates {A : Type} (R : A -> A -> Prop) (l1 l2 : list A) :
  StronglySorted R (l1 ++ l2)%list ->
  StronglySorted R l1 /\ forall x y, In x l1 -> In y l2 -> R x y.
Proof.
  induction l1 as [|a l1 IH]; simpl; intros S.
  - split; [constructor | intros x y []].
  - inversion S as [|a' l' S' F]; subst.
    destruct (IH S') as [S1 D]. split.
    + constructor; [exact S1|].
      rewrite Forall_forall in *. intros x Hx. apply F, in_or_app. now left.
    + intros x y [<-|Hx] Hy; [|now apply D].
      rewrite Forall_forall in F. apply F, in_or_app. now right.
Qed.

(** The first [n] of a ranking: ranked themselves, and no row left out
    outranks a row kept. *)
Lemma limit_of_ranking {A : Type} (R : A -> A -> Prop) (n : nat) (l : list A) :
  StronglySorted R l ->
  StronglySorted R (Sql.LIMIT n l) /\
  forall y, In y l -> In y (Sql.LIMIT n l) \/
                     (List.length (Sql.LIMIT n l) = n /\
                      forall x, In x (Sql.LIMIT n l) -> R x y).
Proof.
  unfold Sql.LIMIT. intros S. rewrite <- (firstn_skipn n l) in S.
  apply sorted_app_dominates in S. destruct S as [S D]. split; [exact S|].
  intros y Hy. rewrite <- (firstn_skipn n l) in Hy. apply in_app_or in Hy.
  destruct Hy as [Hy|Hy]; [now left | right]. split.
  - apply firstn_length_le.
    destruct (Nat.le_gt_cases n (List.length l)) as [L|L]; [exact L|].
    rewrite skipn_all2 in Hy by lia. destruct Hy.
  - intros x Hx. now apply D.
Qed.

Lemma In_firstn {A : Type} (n : nat) (l : list A) (x : A) :
  In x (firstn n l) -> In x l.
Proof.
  intros H. rewrite <- (firstn_skipn n l). apply in_or_app. now left.
Qed.




Lemma sorted_map {A B : Type} (f : A -> B) (key : B -> Q) (l : list A) :
  StronglySorted (descending (fun a => key (f a))) l ->
  StronglySorted (descending key) (map f l).
Proof.
  induction 1 as [|a l S IH F]; simpl; constructor; [exact IH|].
  rewrite Forall_map. exact F.
Qed.



(** ** The customer aggregation *)

Lemma bind_execute_run {A B : Type} (env : environment) (q : database -> A)
  (k : A -> M B) (s : session) :
  fails env (executed s) = false ->
  bind (execute env q) k s = k (q (store s)) (tick s).
Proof. intros F. unfold bind, execute. now rewrite F. Qed.

Lemma bind_execute_fail {A B : Type} (env : environment) (q : database -> A)
  (k : A -> M B) (s : session) :
  fails env (executed s) = true ->
  bind (execute env q) k s = Raised (tick s).
Proof. intros F. unfold bind, execute. now rewrite F. Qed.

(** The guarded division of the retention rate raises nothing. *)
Lemma bind_retention {B : Type} (active total : nat) (k : Q -> M B)
  (s : session) :
  bind (if (0 <? total)%nat
        then bind (truediv active total) (fun ratio => ret (ratio * 100)%Q)
        else ret 0%Q) k s
  = k (if (0 <? total)%nat
       then (inject_Z (Z.of_nat active) / inject_Z (Z.of_nat total) * 100)%Q
       else 0%Q) s.
Proof. destruct total; reflexivity. Qed.

Lemma customers_ok_inv (env : environment) (sd ed : option Calendar.date)
  (s s' : session) (b : CustomerAnalyticsResponse.t) :
  get_customer_analytics env sd ed s = Done (Ok b) s' ->
  CustomerAnalyticsResponse.total_customers b
    = List.length (customer_metrics (store s)) /\
  CustomerAnalyticsResponse.active_customers b
    = count_where CustomerMetrics.is_active (customer_metrics (store s)) /\
  CustomerAnalyticsResponse.avg_customer_lifetime_value b
    = Py.or_zero (Sql.AVG (map CustomerMetrics.customer_lifetime_value
                               (customer_metrics (store s)))) /\
  CustomerAnalyticsResponse.customer_retention_rate b
    = (if (0 <? CustomerAnalyticsResponse.total_customers b)%nat
       then (inject_Z (Z.of_nat (CustomerAnalyticsResponse.active_customers b))
             / inject_Z (Z.of_nat (CustomerAnalyticsResponse.total_customers b))
             * 100)%Q
       else 0%Q) /\
  store s' = store s.
Proof.
  unfold get_customer_analytics. intros H. apply try_except_ok in H.
  apply bind_done in H. destruct H as (r1 & s1 & H1 & H).
  apply execute_done in H1. destruct H1 as (_ & -> & ->).
  apply bind_done in H. destruct H as (r2 & s2 & H2 & H).
  apply execute_done in H2. destruct H2 as (_ & -> & ->).
  apply bind_done in H. destruct H as (r3 & s3 & H3 & H).
  apply execute_done in H3. destruct H3 as (_ & -> & ->).
  rewrite bind_retention in H.
  apply bind_done in H. destruct H as (r4 & s4 & H4 & H).
  apply execute_done in H4. destruct H4 as (_ & -> & ->).
  unfold ret in H. injection H as <- <-.
  cbn [CustomerAnalyticsResponse.total_customers
       CustomerAnalyticsResponse.active_customers
       CustomerAnalyticsResponse.avg_customer_lifetime_value
       CustomerAnalyticsResponse.customer_retention_rate tick store].
  unfold Query.count_active_customers. rewrite length_filter.
  repeat split.
Qed.

Lemma customers_run (env : environment) (sd ed : option Calendar.date)
  (s : session) :
  no_fault env s 4 ->
  exists b, get_customer_analytics env sd ed s = Done (Ok b) (after 4 s).
Proof.
  intros F.
  apply no_fault_step in F. destruct F as [F0 F].
  apply no_fault_step in F. destruct F as [F1 F].
  apply no_fault_step in F. destruct F as [F2 F].
  apply no_fault_step in F. destruct F as [F3 _].
  unfold get_customer_analytics, try_except.
  rewrite (bind_execute_run env _ _ s F0). cbv beta.
  rewrite (bind_execute_run env _ _ _ F1). cbv beta.
  rewrite (bind_execute_run env _ _ _ F2). cbv beta.
  rewrite bind_retention.
  rewrite (bind_execute_run env _ _ _ F3).
  eexists. reflexivity.
Qed.

(** C4. The customer aggregation gives the same result for any two choices
    of [start_date] and [end_date], omitted or not: whatever it answers is
    computed over the whole [customer_metrics] table. *)
Theorem customer_analytics_ignores_dates :
  forall env s sd1 ed1 sd2 ed2,
    get_customer_analytics env sd1 ed1 s = get_customer_analytics env sd2 ed2 s /\
    forall b s',
      get_customer_analytics env sd1 ed1 s = Done (Ok b) s' ->
      CustomerAnalyticsResponse.total_customers b
        = List.length (customer_metrics (store s)) /\
      CustomerAnalyticsResponse.active_customers b
        = count_where CustomerMetrics.is_active (customer_metrics (store s)) /\
      CustomerAnalyticsResponse.avg_customer_lifetime_value b
        = Py.or_zero (Sql.AVG (map CustomerMetrics.customer_lifetime_value
                                   (customer_metrics (store s)))).
Proof.
  intros env s sd1 ed1 sd2 ed2. split; [reflexivity|].
  intros b s' H. apply customers_ok_inv in H. tauto.
Qed.

Lemma customer_analytics_ignores_dates_witness :
  get_customer_analytics Fixture.env None None Fixture.start
  = get_customer_analytics Fixture.env (Some Fixture.feb1) (Some Fixture.jan1)
      Fixture.start /\
  exists b,
    get_customer_analytics Fixture.env None None Fixture.start
    = Done (Ok b) (after 4 Fixture.start) /\
    CustomerAnalyticsResponse.total_customers b = 3%nat.
Proof.
  destruct (customer_analytics_ignores_dates Fixture.env Fixture.start None None
              (Some Fixture.feb1) (Some Fixture.jan1)) as [E T].
  split; [exact E|].
  eexists. split; [reflexivity|].
  apply (T _ (after 4 Fixture.start)). reflexivity.
Defined.

(** C5. With a storage layer that executes its four statements the customer
    aggregation answers for every table, the empty one included:
    [customer_retention_rate] is the number of active customers divided by
    the number of customers, times 100, when the table has rows, and 0 when
    it has none. On the empty table the division itself would raise
    [ZeroDivisionError]; the conditional keeps the handler from evaluating
    it. *)
Theorem retention_rate_guarded :
  forall env sd ed s,
    no_fault env s 4 ->
    exists b,
      get_customer_analytics env sd ed s = Done (Ok b) (after 4 s) /\
      let table := customer_metrics (store s) in
      CustomerAnalyticsResponse.total_customers b = List.length table /\
      CustomerAnalyticsResponse.active_customers b
        = count_where CustomerMetrics.is_active table /\
      (table <> [] ->
       CustomerAnalyticsResponse.customer_retention_rate b
       = (inject_Z (Z.of_nat (count_where CustomerMetrics.is_active table))
          / inject_Z (Z.of_nat (List.length table)) * 100)%Q) /\
      (table = [] ->
       CustomerAnalyticsResponse.customer_retention_rate b = 0%Q /\
       forall s0,
         truediv (CustomerAnalyticsResponse.active_customers b)
                 (CustomerAnalyticsResponse.total_customers b) s0
         = Raised s0).
Proof.
  intros env sd ed s F.
  destruct (customers_run env sd ed s F) as [b H].
  exists b. split; [exact H|].
  destruct (customers_ok_inv _ _ _ _ _ _ H) as (T & A & _ & R & _).
  cbn zeta. split; [exact T|]. split; [exact A|]. rewrite R, T, A. split.
  - intros N. destruct (customer_metrics (store s)); [contradiction|].
    reflexivity.
  - intros ->. split; [reflexivity|]. intros s0. reflexivity.
Qed.

Lemma retention_rate_guarded_witness :
  exists b,
    get_customer_analytics Fixture.env None None (mksession Fixture.empty_db O)
    = Done (Ok b) (after 4 (mksession Fixture.empty_db O)) /\
    CustomerAnalyticsResponse.total_customers b = O /\
    CustomerAnalyticsResponse.customer_retention_rate b = 0%Q.
Proof.
  destruct (retention_rate_guarded Fixture.env None None
              (mksession Fixture.empty_db O)) as (b & H & T & _ & _ & Z0).
  - intros k _. reflexivity.
  - exists b. split; [exact H|]. split; [exact T|]. now apply Z0.
Defined.

(** ** Health check *)

(** C7. The health check raises nothing: whatever the storage round-trip
    does, it answers with a body. The status is "healthy" exactly when the
    round-trip succeeds; a failed round-trip is reported as "unhealthy" in
    the body; and the status is a function of the round-trip alone, not of
    the tables. *)
Theorem health_check_never_raises :
  forall env s,
    exists b,
      health_check env s = Done (Ok b) (tick s) /\
      HealthResponse.status b
        = (if fails env (executed s) then "unhealthy" else "healthy") /\
      HealthResponse.database_status b = HealthResponse.status b /\
      (HealthResponse.status b = "healthy" <-> fails env (executed s) = false) /\
      (HealthResponse.status b = "unhealthy" <-> fails env (executed s) = true).
Proof.
  intros env s. unfold health_check, bind, try_except, execute, ret.
  destruct (fails env (executed s)); eexists; (split; [reflexivity|]);
    cbn; repeat split; congruence.
Qed.

Example health_check_when_storage_is_down :
  body_of (health_check Fixture.env_down Fixture.start)
  = Some (HealthResponse.mk "unhealthy" (Fixture.at_time 2024 1 31 12)
            "unhealthy" "development").
Proof. reflexivity. Qed.

(** ** Storage failures *)

Lemma fault_cases (env : environment) (s : session) (n : nat) :
  (exists k, (k < S n)%nat /\ fails env (k + executed s) = true) ->
  fails env (executed s) = true \/
  (fails env (executed s) = false /\
   exists k, (k < n)%nat /\ fails env (k + executed (tick s)) = true).
Proof.
  intros (k & Hk & Hf). destruct (fails env (executed s)) eqn:E; [now left|].
  right. split; [reflexivity|]. destruct k as [|k]; [cbn in Hf; congruence|].
  exists k. split; [lia|]. cbn [tick executed].
  now replace (k + S (executed s))%nat with (S k + executed s)%nat by lia.
Qed.

Lemma no_fault_zero (env : environment) (s : session) :
  ~ exists k, (k < 0)%nat /\ fails env (k + executed s) = true.
Proof. intros (k & Hk & _). lia. Qed.

Ltac next_statement F :=
  let H := fresh "Hnone" in
  apply fault_cases in F;
  destruct F as [F | [H F]];
  [ rewrite F; eexists; reflexivity | rewrite H; cbv beta iota ].

Lemma sales_fault (env : environment) (sd ed : option Calendar.date)
  (rg ch : option string) (s : session) :
  plain_param rg = true -> plain_param ch = true ->
  (exists k, (k < 4)%nat /\ fails env (k + executed s) = true) ->
  exists s', get_sales_analytics env sd ed rg ch s
             = Done (HTTPException 500 "Internal server error") s'.
Proof.
  intros Pr Pc F.
  unfold get_sales_analytics, try_except, bind.
  destruct (default_start sd (default_end env ed) s) as [d s0|s0|] eqn:D.
  - destruct (default_start_done _ _ _ _ _ D) as [-> _].
    destruct (conditions_plain d (default_end env ed) rg ch Pr Pc) as [p ->].
    unfold execute_where, internal_server_error, ret.
    next_statement F. next_statement F. next_statement F. next_statement F.
    now apply no_fault_zero in F.
  - eexists. reflexivity.
  - unfold default_start, ret, raise in D. destruct sd; [discriminate|].
    destruct (Calendar.minus_days _ _); discriminate.
Qed.

Lemma customers_fault (env : environment) (sd ed : option Calendar.date)
  (s : session) :
  (exists k, (k < 4)%nat /\ fails env (k + executed s) = true) ->
  exists s', get_customer_analytics env sd ed s
             = Done (HTTPException 500 "Internal server error") s'.
Proof.
  intros F. unfold get_customer_analytics, try_except.
  apply fault_cases in F. destruct F as [F|[P0 F]];
    [rewrite (bind_execute_fail env _ _ _ F); eexists; reflexivity|].
  rewrite (bind_execute_run env _ _ _ P0). cbv beta.
  apply fault_cases in F. destruct F as [F|[P1 F]];
    [rewrite (bind_execute_fail env _ _ _ F); eexists; reflexivity|].
  rewrite (bind_execute_run env _ _ _ P1). cbv beta.
  apply fault_cases in F. destruct F as [F|[P2 F]];
    [rewrite (bind_execute_fail env _ _ _ F); eexists; reflexivity|].
  rewrite (bind_execute_run env _ _ _ P2). cbv beta.
  rewrite bind_retention.
  apply fault_cases in F. destruct F as [F|[P3 F]];
    [rewrite (bind_execute_fail env _ _ _ F); eexists; reflexivity|].
  now apply no_fault_zero in F.
Qed.

Lemma category_clause_plain (category : option string) :
  plain_param category = true -> exists p, category_clause category = Rows p.
Proof.
  intros P. unfold category_clause. destruct category as [raw|]; [|now eexists].
  rewrite truthy_some. destruct (String.eqb raw ""); cbn [negb]; [now eexists|].
  rewrite (column_eq_plain _ raw P). now eexists.
Qed.

Lemma products_fault (env : environment) (category : option string)
  (s : session) :
  plain_param category = true ->
  (exists k, (k < 3)%nat /\ fails env (k + executed s) = true) ->
  exists s', get_product_analytics env category s
             = Done (HTTPException 500 "Internal server error") s'.
Proof.
  intros P F. unfold get_product_analytics, try_except, bind.
  destruct (category_clause_plain category P) as [p ->].
  unfold execute_where, execute, internal_server_error, ret.
  next_statement F. next_statement F. next_statement F.
  now apply no_fault_zero in F.
Qed.

(** C8. In each of the three analytics operations, when the storage layer
    fails any of the statements of the computation, the caller gets
    [HTTPException(status_code=500, detail="Internal server error")] and no
    body, however many statements had already succeeded. *)
Theorem storage_failure_is_internal_error :
  forall env s,
    (forall sd ed rg ch,
       plain_param rg = true -> plain_param ch = true ->
       (exists k, (k < 4)%nat /\ fails env (k + executed s) = true) ->
       exists s', get_sales_analytics env sd ed rg ch s
                  = Done (HTTPException 500 "Internal server error") s') /\
    (forall sd ed,
       (exists k, (k < 4)%nat /\ fails env (k + executed s) = true) ->
       exists s', get_customer_analytics env sd ed s
                  = Done (HTTPException 500 "Internal server error") s') /\
    (forall category,
       plain_param category = true ->
       (exists k, (k < 3)%nat /\ fails env (k + executed s) = true) ->
       exists s', get_product_analytics env category s
                  = Done (HTTPException 500 "Internal server error") s').
Proof.
  intros env s. split; [|split].
  - intros. now apply sales_fault.
  - intros. now apply customers_fault.
  - intros. now apply products_fault.
Qed.

Lemma storage_failure_is_internal_error_witness :
  (exists k, (k < 3)%nat /\
             fails Fixture.env_flaky (k + executed Fixture.start) = true) /\
  (exists s',
     get_sales_analytics Fixture.env_flaky None None (Some "US") None
       Fixture.start
     = Done (HTTPException 500 "Internal server error") s') /\
  (exists s',
     get_customer_analytics Fixture.env_flaky None None Fixture.start
     = Done (HTTPException 500 "Internal server error") s') /\
  (exists s',
     get_product_analytics Fixture.env_flaky (Some "Tools") Fixture.start
     = Done (HTTPException 500 "Internal server error") s').
Proof.
  destruct (storage_failure_is_internal_error Fixture.env_flaky Fixture.start)
    as (S1 & S2 & S3).
  assert (exists k, (k < 3)%nat /\
                    fails Fixture.env_flaky (k + executed Fixture.start) = true)
    as F3 by (exists 2%nat; split; [lia | reflexivity]).
  assert (exists k, (k < 4)%nat /\
                    fails Fixture.env_flaky (k + executed Fixture.start) = true)
    as F4 by (exists 2%nat; split; [lia | reflexivity]).
  split; [exact F3|]. split; [|split].
  - exact (S1 None None (Some "US") None eq_refl eq_refl F4).
  - exact (S2 None None F4).
  - exact (S3 (Some "Tools") eq_refl F3).
Defined.

(** ** Seeding *)

(** C9. On a store whose [sales_transactions] table is not empty (and which
    executes the count), [POST /api/v1/data/seed] answers with the message
    reporting the number of transactions, and the database after the request
    is the database before it: nothing is inserted. *)
Theorem seed_is_a_no_op_on_data :
  forall env s,
    sales_transactions (store s) <> [] ->
    fails env (executed s) = false ->
    exists s',
      seed_sample_data env s
      = Done (Ok (SeedResponse.mk
                    ("Database already contains "
                     ++ Py.str_of_nat (List.length (sales_transactions (store s)))
                     ++ " transactions"))) s' /\
      store s' = store s.
Proof.
  intros env s N F. exists (tick s). split; [|reflexivity].
  unfold seed_sample_data, try_except, bind, execute. rewrite F.
  unfold Query.count_transactions.
  destruct (sales_transactions (store s)) as [|r l]; [contradiction|].
  reflexivity.
Qed.

Lemma seed_is_a_no_op_on_data_witness :
  exists s',
    seed_sample_data Fixture.env Fixture.start
    = Done (Ok (SeedResponse.mk "Database already contains 3 transactions")) s' /\
    store s' = Fixture.db.
Proof.
  destruct (seed_is_a_no_op_on_data Fixture.env Fixture.start) as (s' & H & E).
  - discriminate.
  - reflexivity.
  - exists s'. split; [exact H | exact E].
Defined.

(** ** The product aggregation *)

Lemma products_ok_inv (env : environment) (category : option string)
  (s s' : session) (b : ProductPerformanceResponse.t) :
  get_product_analytics env category s = Done (Ok b) s' ->
  ProductPerformanceResponse.category_performance b
    = to_dict (Query.category_query (store s)) /\
  ProductPerformanceResponse.inventory_insights b
    = InventoryInsights.mk
        (List.length (to_dict (Query.category_query (store s))))
        (Py.max_key (to_dict (Query.category_query (store s))))
        (Py.min_key (to_dict (Query.category_query (store s)))) /\
  s' = after 3 s.
Proof.
  unfold get_product_analytics. intros H. apply try_except_ok in H.
  apply bind_done in H. destruct H as (r1 & s1 & H1 & H).
  apply execute_where_done in H1. destruct H1 as (_ & p & Hp & -> & ->).
  apply bind_done in H. destruct H as (r2 & s2 & H2 & H).
  apply execute_where_done in H2. destruct H2 as (_ & p2 & _ & -> & ->).
  apply bind_done in H. destruct H as (r3 & s3 & H3 & H).
  apply execute_done in H3. destruct H3 as (_ & -> & ->).
  unfold ret in H. injection H as <- <-. now repeat split.
Qed.

Lemma products_run (env : environment) (category : option string)
  (s : session) :
  plain_param category = true -> no_fault env s 3 ->
  exists b, get_product_analytics env category s = Done (Ok b) (after 3 s).
Proof.
  intros P F.
  apply no_fault_step in F. destruct F as [F0 F].
  apply no_fault_step in F. destruct F as [F1 F].
  apply no_fault_step in F. destruct F as [F2 _].
  destruct (category_clause_plain category P) as [p Hp].
  unfold get_product_analytics, try_except, bind. rewrite Hp.
  rewrite (execute_where_run env p _ s F0), (execute_where_run env p _ _ F1),
    (execute_run env _ _ F2).
  eexists. reflexivity.
Qed.

(** C10, as the code has it. Whenever the product aggregation answers for
    two choices of [category] (a category that stays inside its quotes, or
    none, always answers when the storage layer executes the three
    statements), the two answers carry the same [category_performance] and
    the same [inventory_insights], both computed from all rows of
    [sales_transactions]. *)
Theorem category_fields_ignore_category :
  forall env s c1 c2,
    (forall b1 b2 s1 s2,
       get_product_analytics env c1 s = Done (Ok b1) s1 ->
       get_product_analytics env c2 s = Done (Ok b2) s2 ->
       ProductPerformanceResponse.category_performance b1
       = ProductPerformanceResponse.category_performance b2 /\
       ProductPerformanceResponse.inventory_insights b1
       = ProductPerformanceResponse.inventory_insights b2 /\
       ProductPerformanceResponse.category_performance b1
       = to_dict (Query.category_query (store s))) /\
    (plain_param c1 = true -> plain_param c2 = true -> no_fault env s 3 ->
     exists b1 b2,
       get_product_analytics env c1 s = Done (Ok b1) (after 3 s) /\
       get_product_analytics env c2 s = Done (Ok b2) (after 3 s)).
Proof.
  intros env s c1 c2. split.
  - intros b1 b2 s1 s2 H1 H2.
    apply products_ok_inv in H1. destruct H1 as (C1 & I1 & _).
    apply products_ok_inv in H2. destruct H2 as (C2 & I2 & _).
    rewrite C1, C2, I1, I2. now repeat split.
  - intros P1 P2 F.
    destruct (products_run env c1 s P1 F) as [b1 H1].
    destruct (products_run env c2 s P2 F) as [b2 H2].
    now exists b1, b2.
Qed.

Lemma category_fields_ignore_category_witness :
  exists b1 b2,
    get_product_analytics Fixture.env None Fixture.start
      = Done (Ok b1) (after 3 Fixture.start) /\
    get_product_analytics Fixture.env (Some "Tools") Fixture.start
      = Done (Ok b2) (after 3 Fixture.start) /\
    ProductPerformanceResponse.category_performance b1
      = ProductPerformanceResponse.category_performance b2 /\
    ProductPerformanceResponse.inventory_insights b1
      = ProductPerformanceResponse.inventory_insights b2 /\
    ProductPerformanceResponse.total_products b1 = 2%nat /\
    ProductPerformanceResponse.total_products b2 = 1%nat.
Proof.
  destruct (category_fields_ignore_category Fixture.env Fixture.start None
              (Some "Tools")) as [Same Both].
  destruct Both as (b1 & b2 & H1 & H2);
    [reflexivity | reflexivity | intros k _; reflexivity |].
  destruct (Same b1 b2 _ _ H1 H2) as (C & I & _).
  exists b1, b2. repeat split; try assumption.
  - vm_compute in H1. injection H1 as <-. reflexivity.
  - vm_compute in H2. injection H2 as <-. reflexivity.
Defined.

(** C10, as stated, fails on the fixture: with no category the aggregation
    answers with a [category_performance], with the category ['] the first
    statement holds an unterminated literal and the caller gets the internal
    error, which carries neither field. *)
Lemma category_fields_depend_on_category :
  performance_fields (get_product_analytics Fixture.env None Fixture.start)
  <> performance_fields
       (get_product_analytics Fixture.env (Some "'") Fixture.start) /\
  get_product_analytics Fixture.env (Some "'") Fixture.start
  = Done (HTTPException 500 "Internal server error") (after 1 Fixture.start).
Proof.
  split; [vm_compute; discriminate | vm_compute; reflexivity].
Qed.

(** * Further properties of the handlers *)

(** ** Dictionaries built from grouped rows *)

Lemma dict_set_fresh {V : Type} (d : Py.dict V) (k : string) (v : V) :
  ~ In k (Py.keys d) -> Py.dict_set d k v = (d ++ [(k, v)])%list.
Proof.
  unfold Py.keys. induction d as [|[k' v'] d IH]; simpl; intros N; [reflexivity|].
  destruct (String.eqb_spec k' k) as [->|_]; [tauto|].
  rewrite IH by tauto. reflexivity.
Qed.

Lemma fold_dict_set_fresh (rows d : list (string * Q)) :
  NoDup (map fst (d ++ rows)%list) ->
  fold_left (fun d row => Py.dict_set d (fst row) (snd row)) rows d
  = (d ++ rows)%list.
Proof.
  revert d. induction rows as [|[k v] rows IH]; intros d ND; simpl.
  - now rewrite app_nil_r.
  - rewrite dict_set_fresh.
    + rewrite IH; rewrite <- app_assoc; [reflexivity | exact ND].
    + rewrite map_app in ND. apply NoDup_remove_2 in ND.
      intros Hin. apply ND. apply in_or_app. now left.
Qed.

(** Rows with pairwise distinct keys become the dictionary that lists
    them in their order. *)
Lemma to_dict_distinct (rows : list (string * Q)) :
  NoDup (map fst rows) -> to_dict rows = rows.
Proof. intros ND. unfold to_dict. now rewrite fold_dict_set_fresh. Qed.

Lemma dict_get_listed (g : string -> Q) (ks : list string) (k : string) :
  Py.dict_get (map (fun k => (k, g k)) ks) k
  = if in_dec string_dec k ks then Some (g k) else None.
Proof.
  induction ks as [|x ks IH]; simpl; [reflexivity|].
  destruct (String.eqb_spec x k) as [->|N].
  - destruct (string_dec k k); [reflexivity | contradiction].
  - rewrite IH. destruct (string_dec x k); [contradiction|].
    destruct (in_dec string_dec k ks); reflexivity.
Qed.







(** ** Sales: revenue by region and by channel *)
















(** ** Sales: the product ranking against the rows *)

(** Integer sums taken group by group, over distinct keys. *)
Section QuantitiesByKey.
Context {A K : Type} (eqb : K -> K -> bool) (key : A -> K) (f : A -> Z).
Hypothesis eqb_eq : forall a b, eqb a b = true <-> a = b.



End QuantitiesByKey.



(** ** Sales: empty table, date arithmetic, wider ranges *)

(** On an empty [sales_transactions] table the sales aggregation answers
    with zero revenue, zero transactions, zero average and three empty
    collections. *)
Lemma sales_of_empty_table :
  forall env sd ed rg ch s start_date,
    sales_transactions (store s) = [] ->
    default_start sd (default_end env ed) s = Done start_date s ->
    plain_param rg = true -> plain_param ch = true ->
    no_fault env s 4 ->
    get_sales_analytics env sd ed rg ch s
    = Done (Ok (SalesMetricsResponse.mk 0 O 0 [] [] [])) (after 4 s).
Proof.
  intros env sd ed rg ch s start_date E H0 Pr Pc F.
  destruct (conditions_plain start_date (default_end env ed) rg ch Pr Pc)
    as [p Hp].
  rewrite (sales_run env sd ed rg ch s start_date p H0 Hp F).
  unfold Query.revenue_query, Query.top_products_query, Query.region_query,
    Query.channel_query, Query.revenue_by.
  rewrite E. reflexivity.
Qed.

Lemma headroom_positive (d : Calendar.date) :
  Calendar.date_valid d = true -> 1 <= headroom d.
Proof.
  intros V. destruct (date_valid_bounds d V) as (_ & _ & D). unfold headroom.
  destruct (_ && _); lia.
Qed.

(** One day back costs at most one day of headroom, and fails only on
    0001-01-01. *)
Lemma yesterday_headroom (d : Calendar.date) :
  Calendar.date_valid d = true ->
  (headroom d = 1 /\ Calendar.yesterday d = None) \/
  (exists p, Calendar.yesterday d = Some p /\
             Calendar.date_valid p = true /\
             headroom d <= headroom p + 1 /\
             (headroom d <= 30 -> headroom p + 1 = headroom d)).
Proof.
  intros V. destruct (date_valid_bounds d V) as (Y & Mo & D).
  destruct (Calendar.yesterday d) as [p|] eqn:E.
  - right. exists p. split; [reflexivity|].
    split; [now apply (yesterday_valid d)|].
    revert E. unfold Calendar.yesterday, headroom.
    destruct (N.ltb_spec 1 (Calendar.day d)) as [H1|H1].
    { intros [= <-]. cbn [Calendar.year Calendar.month Calendar.day].
      destruct (_ && _); lia. }
    destruct (N.ltb_spec 1 (Calendar.month d)) as [H2|H2].
    { intros [= <-]. cbn [Calendar.year Calendar.month Calendar.day].
      destruct (N.eqb_spec (Calendar.month d) 1) as [M1|M1]; [lia|].
      rewrite andb_false_r.
      destruct (N.eqb_spec (Calendar.month d - 1) 1) as [M2|M2].
      - replace (Calendar.month d - 1) with 1 by lia. cbn.
        destruct (Calendar.year d =? 1); cbn; lia.
      - rewrite andb_false_r. lia. }
    destruct (N.ltb_spec 1 (Calendar.year d)) as [H3|H3]; [|discriminate].
    intros [= <-]. cbn [Calendar.year Calendar.month Calendar.day].
    destruct (N.eqb_spec (Calendar.year d) 1) as [Y1|Y1]; [lia|].
    cbn [andb]. rewrite andb_false_r. lia.
  - left. split; [|reflexivity].
    revert E. unfold Calendar.yesterday, headroom.
    destruct (N.ltb_spec 1 (Calendar.day d)); [discriminate|].
    destruct (N.ltb_spec 1 (Calendar.month d)); [discriminate|].
    destruct (N.ltb_spec 1 (Calendar.year d)); [discriminate|]. intros _.
    replace (Calendar.year d) with 1 by lia.
    replace (Calendar.month d) with 1 by lia. cbn. lia.
Qed.

(** [d - timedelta(days=n)] exists exactly when [d] has [n] days before it. *)
Lemma minus_days_exists (n : nat) (d : Calendar.date) :
  Calendar.date_valid d = true -> N.of_nat n < headroom d ->
  exists p, Calendar.minus_days d n = Some p.
Proof.
  revert d. induction n as [|n IH]; intros d V H; cbn [Calendar.minus_days].
  - now exists d.
  - destruct (yesterday_headroom d V) as [[H1 _]|(p & -> & Vp & Hp & _)]; [lia|].
    apply IH; [exact Vp | lia].
Qed.

Lemma minus_days_overflow (n : nat) (d : Calendar.date) :
  Calendar.date_valid d = true -> headroom d <= N.of_nat n -> (n <= 30)%nat ->
  Calendar.minus_days d n = None.
Proof.
  revert d. induction n as [|n IH]; intros d V H L; cbn [Calendar.minus_days].
  - pose proof (headroom_positive d V). lia.
  - destruct (yesterday_headroom d V) as [[_ ->]|(p & -> & Vp & _ & Hp)];
      [reflexivity|].
    apply IH; [exact Vp | lia | lia].
Qed.

Lemma headroom_first_days (d : Calendar.date) :
  headroom d <= 30 <->
  Calendar.year d = 1 /\ Calendar.month d = 1 /\ Calendar.day d <= 30.
Proof.
  unfold headroom.
  destruct (N.eqb_spec (Calendar.year d) 1), (N.eqb_spec (Calendar.month d) 1);
    cbn [andb]; lia.
Qed.

(** X7. With [start_date] omitted the default is [end_date] minus 30 days,
    and it exists exactly when [end_date] (given, or today) is 0001-01-31 or
    later. For an earlier [end_date] the subtraction overflows: the caller
    gets the internal error and no statement is executed. *)
Theorem default_start_overflow :
  forall env ed rg ch s,
    Calendar.date_valid (default_end env ed) = true ->
    let end_date := default_end env ed in
    (Calendar.year end_date = 1 /\ Calendar.month end_date = 1 /\
     Calendar.day end_date <= 30 ->
     get_sales_analytics env None ed rg ch s
     = Done (HTTPException 500 "Internal server error") s) /\
    (~ (Calendar.year end_date = 1 /\ Calendar.month end_date = 1 /\
        Calendar.day end_date <= 30) ->
     exists start_date,
       default_start None end_date s = Done start_date s /\
       Calendar.date_valid start_date = true).
Proof.
  intros env ed rg ch s V end_date. split.
  - intros H. apply headroom_first_days in H.
    unfold get_sales_analytics, try_except, bind, default_start.
    fold end_date.
    rewrite (minus_days_overflow 30 end_date V) by (cbn; lia). reflexivity.
  - intros H. rewrite <- headroom_first_days in H.
    destruct (minus_days_exists 30 end_date V) as [p Hp]; [cbn; lia|].
    exists p. unfold default_start. rewrite Hp. split; [reflexivity|].
    now apply (minus_days_valid 30 end_date).
Qed.

Lemma default_start_overflow_witness :
  get_sales_analytics Fixture.env None (Some (Calendar.mkdate 1 1 30)) None None
    Fixture.start
  = Done (HTTPException 500 "Internal server error") Fixture.start /\
  exists start_date,
    default_start None (default_end Fixture.env (Some (Calendar.mkdate 1 1 31)))
      Fixture.start = Done start_date Fixture.start /\
    Calendar.date_valid start_date = true.
Proof.
  split.
  - apply (default_start_overflow Fixture.env (Some (Calendar.mkdate 1 1 30)));
      [reflexivity | cbn; lia].
  - apply (default_start_overflow Fixture.env (Some (Calendar.mkdate 1 1 31))
             None None); [reflexivity | cbn; lia].
Defined.







(** ** Customers: retention rate, ranking *)

(** What the customer handler answers. *)
Lemma customers_body (env : environment) (sd ed : option Calendar.date)
  (s s' : session) (b : CustomerAnalyticsResponse.t) :
  get_customer_analytics env sd ed s = Done (Ok b) s' ->
  let table := customer_metrics (store s) in
  b = CustomerAnalyticsResponse.mk
        (List.length table)
        (count_where CustomerMetrics.is_active table)
        (Py.or_zero (Sql.AVG (map CustomerMetrics.customer_lifetime_value table)))
        (if (0 <? List.length table)%nat
         then (inject_Z (Z.of_nat (count_where CustomerMetrics.is_active table))
               / inject_Z (Z.of_nat (List.length table)) * 100)%Q
         else 0%Q)
        (map customer_entry
             (Sql.LIMIT 10
                (Sql.order_by_desc CustomerMetrics.customer_lifetime_value table))).
Proof.
  unfold get_customer_analytics. intros H. apply try_except_ok in H.
  apply bind_done in H. destruct H as (r1 & s1 & H1 & H).
  apply execute_done in H1. destruct H1 as (_ & -> & ->).
  apply bind_done in H. destruct H as (r2 & s2 & H2 & H).
  apply execute_done in H2. destruct H2 as (_ & -> & ->).
  apply bind_done in H. destruct H as (r3 & s3 & H3 & H).
  apply execute_done in H3. destruct H3 as (_ & -> & ->).
  rewrite bind_retention in H.
  apply bind_done in H. destruct H as (r4 & s4 & H4 & H).
  apply execute_done in H4. destruct H4 as (_ & -> & ->).
  unfold ret in H. injection H as <- <-.
  cbn [tick store]. unfold Query.count_active_customers, Query.count_customers,
    Query.avg_clv_query, Query.top_customers_query.
  rewrite length_filter. reflexivity.
Qed.

Lemma count_where_le_length {A : Type} (p : A -> bool) (l : list A) :
  (count_where p l <= List.length l)%nat.
Proof. induction l as [|a l IH]; simpl; [lia|]. destruct (p a); lia. Qed.

(** X9. Whenever the customer aggregation answers, [active_customers] is
    at most [total_customers] and [customer_retention_rate] lies between 0
    and 100. *)
Theorem retention_rate_is_a_percentage :
  forall env sd ed s s' b,
    get_customer_analytics env sd ed s = Done (Ok b) s' ->
    (CustomerAnalyticsResponse.active_customers b
     <= CustomerAnalyticsResponse.total_customers b)%nat /\
    (0 <= CustomerAnalyticsResponse.customer_retention_rate b)%Q /\
    (CustomerAnalyticsResponse.customer_retention_rate b <= 100)%Q.
Proof.
  intros env sd ed s s' b H. rewrite (customers_body _ _ _ _ _ _ H).
  cbn [CustomerAnalyticsResponse.active_customers
       CustomerAnalyticsResponse.total_customers
       CustomerAnalyticsResponse.customer_retention_rate].
  set (table := customer_metrics (store s)).
  pose proof (count_where_le_length CustomerMetrics.is_active table) as L.
  split; [exact L|].
  destruct (Nat.ltb_spec 0 (List.length table)) as [Pos|_];
    [|split; [apply Qle_refl | discriminate]].
  set (a := inject_Z (Z.of_nat (count_where CustomerMetrics.is_active table))).
  set (t := inject_Z (Z.of_nat (List.length table))).
  assert (0 <= a)%Q as A0 by (unfold a; rewrite <- (Zle_Qle 0); lia).
  assert (a <= t)%Q as AT by (unfold a, t; rewrite <- Zle_Qle; lia).
  assert (0 < t)%Q as T0 by (unfold t; rewrite <- (Zlt_Qlt 0); lia).
  assert (0 <= a / t)%Q as Q0.
  { apply Qle_shift_div_l; [exact T0|]. now rewrite Qmult_0_l. }
  assert (a / t <= 1)%Q as Q1.
  { apply Qle_shift_div_r; [exact T0|]. now rewrite Qmult_1_l. }
  split.
  - apply Qmult_le_0_compat; [exact Q0 | discriminate].
  - setoid_replace 100%Q with (1 * 100)%Q at 2 by ring.
    apply Qmult_le_compat_r; [exact Q1 | discriminate].
Qed.

Lemma retention_rate_is_a_percentage_witness :
  exists b,
    get_customer_analytics Fixture.env None None Fixture.start
    = Done (Ok b) (after 4 Fixture.start) /\
    (CustomerAnalyticsResponse.customer_retention_rate b <= 100)%Q.
Proof.
  eexists. split; [reflexivity|].
  eapply (retention_rate_is_a_percentage Fixture.env None None Fixture.start).
  reflexivity.
Defined.

(** X11. Whenever the customer aggregation answers, [top_customers] lists
    the entries of rows of the table, each row at most as often as the table
    holds it (the listed rows and the rows left out make up the table), as
    many as there are customers up to 10, in descending order of
    [customer_lifetime_value]; a customer is left out only when the list
    holds 10 customers of at least its value. *)
Theorem top_customers_ranked :
  forall env sd ed s s' b,
    get_customer_analytics env sd ed s = Done (Ok b) s' ->
    let table := customer_metrics (store s) in
    exists kept,
      CustomerAnalyticsResponse.top_customers b = map customer_entry kept /\
      List.length kept = Nat.min 10 (List.length table) /\
      (exists left_out, Permutation (kept ++ left_out)%list table) /\
      (forall r, In r kept -> In r table) /\
      StronglySorted (descending TopCustomer.customer_lifetime_value)
        (CustomerAnalyticsResponse.top_customers b) /\
      forall r, In r table ->
        In r kept \/
        (List.length kept = 10%nat /\
         forall k, In k kept ->
           (CustomerMetrics.customer_lifetime_value r
            <= CustomerMetrics.customer_lifetime_value k)%Q).
Proof.
  intros env sd ed s s' b H table. rewrite (customers_body _ _ _ _ _ _ H).
  cbn [CustomerAnalyticsResponse.top_customers]. fold table.
  set (ranked := Sql.order_by_desc CustomerMetrics.customer_lifetime_value table).
  assert (Permutation ranked table) as P by apply order_by_desc_perm.
  pose proof (order_by_desc_sorted CustomerMetrics.customer_lifetime_value table)
    as S. fold ranked in S.
  destruct (limit_of_ranking _ 10 ranked S) as [S10 Top].
  exists (Sql.LIMIT 10 ranked). split; [reflexivity|].
  split; [|split; [|split; [|split]]].
  - unfold Sql.LIMIT. now rewrite length_firstn, (Permutation_length P).
  - exists (skipn 10 ranked). unfold Sql.LIMIT. now rewrite firstn_skipn.
  - intros r Hr. apply (Permutation_in _ P). now apply (In_firstn 10).
  - apply sorted_map. exact S10.
  - intros r Hr. apply (Permutation_in _ (Permutation_sym P)) in Hr.
    destruct (Top r Hr) as [I|[L D]]; [now left | right].
    split; [exact L|]. intros k Hk. now apply D.
Qed.

Lemma top_customers_ranked_witness :
  exists b,
    get_customer_analytics Fixture.env None None Fixture.start
    = Done (Ok b) (after 4 Fixture.start) /\
    map TopCustomer.customer_lifetime_value
        (CustomerAnalyticsResponse.top_customers b) = [30%Q; 20%Q; 10%Q] /\
    StronglySorted (descending TopCustomer.customer_lifetime_value)
      (CustomerAnalyticsResponse.top_customers b).
Proof.
  eexists. split; [reflexivity|]. split; [reflexivity|].
  destruct (top_customers_ranked Fixture.env None None Fixture.start _ _ eq_refl)
    as (kept & _ & _ & _ & _ & S & _).
  exact S.
Defined.

(** On an empty [customer_metrics] table the customer aggregation answers
    with no customers, zero average value, zero retention rate and an empty
    [top_customers]. *)
Lemma customers_of_empty_table :
  forall env sd ed s,
    customer_metrics (store s) = [] ->
    no_fault env s 4 ->
    get_customer_analytics env sd ed s
    = Done (Ok (CustomerAnalyticsResponse.mk O O 0 0 [])) (after 4 s).
Proof.
  intros env sd ed s E F.
  destruct (customers_run env sd ed s F) as [b H]. rewrite H.
  rewrite (customers_body _ _ _ _ _ _ H). cbn zeta. now rewrite E.
Qed.

(** ** Products: category performance, insights, the category filter *)

Lemma category_clause_rows (category : option string)
  (p : SalesTransaction.t -> bool) :
  category_clause category = Rows p ->
  forall r, p r = in_category category r.
Proof.
  unfold category_clause, in_category, wanted.
  destruct category as [raw|]; [|now intros [= <-]].
  rewrite truthy_some. destruct (String.eqb raw ""); cbn [negb orb].
  - now intros [= <-].
  - intros H. now apply column_eq_rows in H.
Qed.

(** What the product handler answers. *)
Lemma products_body (env : environment) (category : option string)
  (s s' : session) (b : ProductPerformanceResponse.t) :
  get_product_analytics env category s = Done (Ok b) s' ->
  exists p,
    (forall r, p r = in_category category r) /\
    ProductPerformanceResponse.total_products b
      = Query.total_products_query p (store s) /\
    ProductPerformanceResponse.top_performing_products b
      = Query.performing_products_query p (store s) /\
    ProductPerformanceResponse.category_performance b
      = to_dict (Query.category_query (store s)) /\
    ProductPerformanceResponse.inventory_insights b
      = InventoryInsights.mk
          (List.length (to_dict (Query.category_query (store s))))
          (Py.max_key (to_dict (Query.category_query (store s))))
          (Py.min_key (to_dict (Query.category_query (store s)))).
Proof.
  unfold get_product_analytics. intros H. apply try_except_ok in H.
  apply bind_done in H. destruct H as (r1 & s1 & H1 & H).
  apply execute_where_done in H1. destruct H1 as (_ & p & Hp & -> & ->).
  rewrite Hp in H.
  apply bind_done in H. destruct H as (r2 & s2 & H2 & H).
  apply execute_where_done in H2. destruct H2 as (_ & p2 & [= <-] & -> & ->).
  apply bind_done in H. destruct H as (r3 & s3 & H3 & H).
  apply execute_done in H3. destruct H3 as (_ & -> & ->).
  unfold ret in H. injection H as <- <-.
  exists p. split; [now apply category_clause_rows|]. now repeat split.
Qed.

(** The statement behind [category_performance], by category. *)
Lemma category_query_by_category (db : database) :
  let table := sales_transactions db in
  let revenue := fun c => revenue_where SalesTransaction.category c table in
  let ranked := Sql.order_by_desc revenue
                  (Sql.distinct String.eqb
                     (map SalesTransaction.category table)) in
  to_dict (Query.category_query db) = map (fun c => (c, revenue c)) ranked /\
  Permutation ranked
    (Sql.distinct String.eqb (map SalesTransaction.category table)) /\
  StronglySorted (descending revenue) ranked.
Proof.
  intros table revenue ranked.
  assert (Permutation ranked
            (Sql.distinct String.eqb (map SalesTransaction.category table)))
    as P by apply order_by_desc_perm.
  split; [|split; [exact P | apply order_by_desc_sorted]].
  unfold Query.category_query, Sql.group_by. fold table.
  rewrite map_map. cbn [fst snd].
  rewrite (map_ext _ (fun c => (c, revenue c)))
    by (intros c; unfold revenue, revenue_where; now rewrite total_filter).
  rewrite (order_by_desc_map (fun c => (c, revenue c)) snd).
  change (fun x => snd (x, revenue x)) with revenue. fold ranked.
  apply to_dict_distinct. rewrite map_map. cbn [fst]. rewrite map_id.
  apply (Permutation_NoDup (Permutation_sym P)).
  apply distinct_NoDup, String.eqb_eq.
Qed.

(** X12. Whenever the product aggregation answers, [category_performance]
    has one entry per category of the table: its keys are pairwise
    distinct, the entry of a row's category is the summed revenue of all
    rows of that category, a category no row has is missing, the entries
    are in descending order of revenue, and [total_categories] is their
    number. *)
Theorem category_performance_by_category :
  forall env category s s' b,
    get_product_analytics env category s = Done (Ok b) s' ->
    let table := sales_transactions (store s) in
    let cp := ProductPerformanceResponse.category_performance b in
    NoDup (Py.keys cp) /\
    (forall r, In r table ->
       Py.dict_get cp (SalesTransaction.category r)
       = Some (revenue_where SalesTransaction.category
                 (SalesTransaction.category r) table)) /\
    (forall c, (forall r, In r table -> SalesTransaction.category r <> c) ->
       Py.dict_get cp c = None) /\
    StronglySorted (descending snd) cp /\
    InventoryInsights.total_categories
      (ProductPerformanceResponse.inventory_insights b)
    = List.length (Sql.distinct String.eqb
                     (map SalesTransaction.category table)).
Proof.
  intros env category s s' b H table cp.
  destruct (products_body _ _ _ _ _ H) as (p & _ & _ & _ & C & I).
  destruct (category_query_by_category (store s)) as (E & P & S).
  cbn zeta in E, P, S. fold table in E, P, S.
  set (revenue := fun c => revenue_where SalesTransaction.category c table) in *.
  set (ranked := Sql.order_by_desc revenue _) in *.
  unfold cp. rewrite I, C, E. cbn [InventoryInsights.total_categories].
  split; [|split; [|split; [|split]]].
  - unfold Py.keys. rewrite map_map. cbn [fst]. rewrite map_id.
    apply (Permutation_NoDup (Permutation_sym P)).
    apply distinct_NoDup, String.eqb_eq.
  - intros r Hr. rewrite dict_get_listed.
    destruct (in_dec _ _ _) as [_|N]; [reflexivity|].
    exfalso. apply N. apply (Permutation_in _ (Permutation_sym P)).
    rewrite (distinct_In _ String.eqb_eq). now apply in_map.
  - intros c Hc. rewrite dict_get_listed.
    destruct (in_dec _ _ _) as [In_c|_]; [|reflexivity].
    apply (Permutation_in _ P) in In_c.
    rewrite (distinct_In _ String.eqb_eq) in In_c. apply in_map_iff in In_c.
    destruct In_c as (r & Er & Hr). now elim (Hc r Hr).
  - apply sorted_map. exact S.
  - rewrite length_map. apply (Permutation_length P).
Qed.

Lemma category_performance_by_category_witness :
  exists b,
    get_product_analytics Fixture.env (Some "Toys") Fixture.start
    = Done (Ok b) (after 3 Fixture.start) /\
    ProductPerformanceResponse.category_performance b
    = [("Tools", 150%Q); ("Toys", 50%Q)] /\
    NoDup (Py.keys (ProductPerformanceResponse.category_performance b)).
Proof.
  eexists. split; [reflexivity|]. split; [reflexivity|].
  exact (proj1 (category_performance_by_category Fixture.env (Some "Toys")
                  Fixture.start _ _ eq_refl)).
Defined.

Section Extremes.
Context {A : Type} (f : A -> Q).

Lemma max_from_spec (best : A) (l : list A) :
  In (Py.max_from f best l) (best :: l) /\
  forall x, In x (best :: l) -> (f x <= f (Py.max_from f best l))%Q.
Proof.
  revert best. induction l as [|y l IH]; intros best; cbn [Py.max_from].
  - split; [now left|]. intros x [<-|[]]. apply Qle_refl.
  - destruct (IH (if Py.Qlt_bool (f best) (f y) then y else best)) as [I M].
    split.
    + destruct I as [E|I]; [|now right; right].
      rewrite <- E. destruct (Py.Qlt_bool _ _); [right; now left | now left].
    + assert (f best <= f (if Py.Qlt_bool (f best) (f y) then y else best)
              /\ f y <= f (if Py.Qlt_bool (f best) (f y) then y else best))%Q
        as [B Y].
      { unfold Py.Qlt_bool. destruct (Qle_bool (f y) (f best)) eqn:E; cbn [negb].
        - split; [apply Qle_refl | now apply Qle_bool_iff].
        - split; [|apply Qle_refl].
          apply Qlt_le_weak, Qnot_le_lt. rewrite <- Qle_bool_iff. congruence. }
      intros x [<-|[<-|Hx]].
      * apply Qle_trans with (2 := M _ (or_introl eq_refl)). exact B.
      * apply Qle_trans with (2 := M _ (or_introl eq_refl)). exact Y.
      * apply M. now right.
Qed.

Lemma min_from_spec (best : A) (l : list A) :
  In (Py.min_from f best l) (best :: l) /\
  forall x, In x (best :: l) -> (f (Py.min_from f best l) <= f x)%Q.
Proof.
  revert best. induction l as [|y l IH]; intros best; cbn [Py.min_from].
  - split; [now left|]. intros x [<-|[]]. apply Qle_refl.
  - destruct (IH (if Py.Qlt_bool (f y) (f best) then y else best)) as [I M].
    split.
    + destruct I as [E|I]; [|now right; right].
      rewrite <- E. destruct (Py.Qlt_bool _ _); [right; now left | now left].
    + assert (f (if Py.Qlt_bool (f y) (f best) then y else best) <= f best
              /\ f (if Py.Qlt_bool (f y) (f best) then y else best) <= f y)%Q
        as [B Y].
      { unfold Py.Qlt_bool. destruct (Qle_bool (f best) (f y)) eqn:E; cbn [negb].
        - split; [apply Qle_refl | now apply Qle_bool_iff].
        - split; [|apply Qle_refl].
          apply Qlt_le_weak, Qnot_le_lt. rewrite <- Qle_bool_iff. congruence. }
      intros x [<-|[<-|Hx]].
      * apply Qle_trans with (1 := M _ (or_introl eq_refl)). exact B.
      * apply Qle_trans with (1 := M _ (or_introl eq_refl)). exact Y.
      * apply M. now right.
Qed.

(** In a descending list the first element is the one [max] keeps. *)
Lemma max_from_sorted (best : A) (l : list A) :
  StronglySorted (descending f) (best :: l) -> Py.max_from f best l = best.
Proof.
  revert best. induction l as [|y l IH]; intros best S; cbn [Py.max_from];
    [reflexivity|].
  inversion S as [|? ? S' F]; subst.
  assert (Py.Qlt_bool (f best) (f y) = false) as ->.
  { unfold Py.Qlt_bool. apply negb_false_iff, Qle_bool_iff.
    rewrite Forall_forall in F. apply (F y). now left. }
  apply IH. inversion S' as [|? ? S'' F']; subst.
  constructor; [exact S''|]. rewrite Forall_forall in *. intros x Hx.
  apply F. now right.
Qed.

End Extremes.

Lemma max_from_ext {A : Type} (f g : A -> Q) (best : A) (l : list A) :
  (forall x, In x (best :: l) -> f x = g x) ->
  Py.max_from f best l = Py.max_from g best l.
Proof.
  revert best. induction l as [|y l IH]; intros best E; cbn [Py.max_from];
    [reflexivity|].
  rewrite (E best) by now left. rewrite (E y) by (right; now left).
  apply IH. intros x [<-|Hx].
  - destruct (Py.Qlt_bool _ _); apply E; [right; now left | now left].
  - apply E. now right; right.
Qed.

Lemma listed_value (g : string -> Q) (ks : list string) (k : string) :
  In k ks -> Py.or_zero (Py.dict_get (map (fun k => (k, g k)) ks) k) = g k.
Proof.
  intros H. rewrite dict_get_listed.
  destruct (in_dec string_dec k ks); [reflexivity | contradiction].
Qed.

Lemma listed_entry (g : string -> Q) (ks : list string) (k : string) (v : Q) :
  Py.dict_get (map (fun k => (k, g k)) ks) k = Some v -> In k ks /\ v = g k.
Proof.
  rewrite dict_get_listed. destruct (in_dec string_dec k ks); [|discriminate].
  intros [= <-]. now split.
Qed.

(** X13. Whenever the product aggregation answers on a table with rows,
    [most_profitable_category] is the first key of [category_performance],
    its revenue is at least that of every category, and
    [least_profitable_category] is a key whose revenue is at most that of
    every category; on a table without rows both are [None]. *)
Theorem profitable_categories_are_extremes :
  forall env category s s' b,
    get_product_analytics env category s = Done (Ok b) s' ->
    let cp := ProductPerformanceResponse.category_performance b in
    let insights := ProductPerformanceResponse.inventory_insights b in
    InventoryInsights.most_profitable_category insights
      = hd_error (Py.keys cp) /\
    (sales_transactions (store s) = [] ->
     InventoryInsights.most_profitable_category insights = None /\
     InventoryInsights.least_profitable_category insights = None) /\
    (sales_transactions (store s) <> [] ->
     exists most least v_most v_least,
       InventoryInsights.most_profitable_category insights = Some most /\
       InventoryInsights.least_profitable_category insights = Some least /\
       Py.dict_get cp most = Some v_most /\
       Py.dict_get cp least = Some v_least /\
       forall c v, Py.dict_get cp c = Some v -> (v_least <= v <= v_most)%Q).
Proof.
  intros env category s s' b H cp insights.
  destruct (products_body _ _ _ _ _ H) as (p & _ & _ & _ & C & I).
  destruct (category_query_by_category (store s)) as (E & P & S).
  cbn zeta in E, P, S.
  set (table := sales_transactions (store s)) in *.
  set (revenue := fun c => revenue_where SalesTransaction.category c table) in *.
  set (ranked := Sql.order_by_desc revenue _) in *. clearbody ranked.
  unfold insights, cp. rewrite I, C, E.
  cbn [InventoryInsights.most_profitable_category
       InventoryInsights.least_profitable_category].
  unfold Py.max_key, Py.min_key, Py.keys. rewrite map_map. cbn [fst].
  rewrite map_id.
  split; [|split].
  - destruct ranked as [|k rest]; [reflexivity|]. cbn [hd_error].
    f_equal. rewrite (max_from_ext _ revenue).
    + now apply max_from_sorted.
    + intros x Hx. now apply listed_value.
  - intros Empty. assert (ranked = []) as ->; [|now split].
    apply Permutation_nil, Permutation_sym.
    replace (@nil string)
      with (Sql.distinct String.eqb (map SalesTransaction.category table));
      [exact P | now rewrite Empty].
  - intros NonEmpty. destruct ranked as [|k rest].
    { exfalso. apply Permutation_nil in P.
      destruct table as [|r t]; [now apply NonEmpty | discriminate P]. }
    set (key := fun k0 => Py.or_zero
                  (Py.dict_get (map (fun c => (c, revenue c)) (k :: rest)) k0)).
    destruct (max_from_spec key k rest) as [Imax Max].
    destruct (min_from_spec key k rest) as [Imin Min].
    exists (Py.max_from key k rest), (Py.min_from key k rest),
      (revenue (Py.max_from key k rest)), (revenue (Py.min_from key k rest)).
    split; [reflexivity|]. split; [reflexivity|].
    assert (forall x, In x (k :: rest) ->
              Py.dict_get (map (fun c => (c, revenue c)) (k :: rest)) x
              = Some (revenue x)) as L.
    { intros x Hx. rewrite dict_get_listed.
      destruct (in_dec string_dec x (k :: rest)); [reflexivity | contradiction]. }
    split; [now apply L|]. split; [now apply L|].
    intros c v Hc. apply listed_entry in Hc. destruct Hc as [Hc ->].
    assert (forall x, In x (k :: rest) -> key x = revenue x) as K
      by (intros x Hx; now apply listed_value).
    pose proof (Min c Hc) as Lo. pose proof (Max c Hc) as Hi.
    rewrite (K c Hc) in Lo, Hi. rewrite (K _ Imin) in Lo. rewrite (K _ Imax) in Hi.
    split; [exact Lo | exact Hi].
Qed.

Lemma profitable_categories_are_extremes_witness :
  exists b,
    get_product_analytics Fixture.env None Fixture.start
    = Done (Ok b) (after 3 Fixture.start) /\
    InventoryInsights.most_profitable_category
      (ProductPerformanceResponse.inventory_insights b) = Some "Tools" /\
    hd_error (Py.keys (ProductPerformanceResponse.category_performance b))
    = Some "Tools".
Proof.
  eexists. split; [reflexivity|]. split; [reflexivity|].
  rewrite <- (proj1 (profitable_categories_are_extremes Fixture.env None
                       Fixture.start _ _ eq_refl)).
  reflexivity.
Defined.








(** ** Empty tables *)

Lemma products_of_empty_table (env : environment) (category : option string)
  (s : session) :
  sales_transactions (store s) = [] ->
  plain_param category = true -> no_fault env s 3 ->
  get_product_analytics env category s
  = Done (Ok (ProductPerformanceResponse.mk O [] []
                (InventoryInsights.mk O None None))) (after 3 s).
Proof.
  intros E P F.
  apply no_fault_step in F. destruct F as [F0 F].
  apply no_fault_step in F. destruct F as [F1 F].
  apply no_fault_step in F. destruct F as [F2 _].
  destruct (category_clause_plain category P) as [p Hp].
  unfold get_product_analytics, try_except, bind. rewrite Hp.
  rewrite (execute_where_run env p _ s F0), (execute_where_run env p _ _ F1),
    (execute_run env _ _ F2).
  cbn [tick store]. unfold Query.total_products_query,
    Query.performing_products_query, Query.category_query.
  rewrite E. reflexivity.
Qed.

(** X16. On a database without rows, as the tests run it, every
    aggregation answers when the storage layer executes its statements:
    sales, for every date range and every region and channel, with zero
    revenue, transactions and average and three empty collections;
    customers with zero counts, average and retention rate and no top
    customers; products, for every category, with zero products, two empty
    collections and no most or least profitable category. *)
Theorem empty_tables_answer_empty :
  forall env s,
    sales_transactions (store s) = [] -> customer_metrics (store s) = [] ->
    (forall sd ed rg ch start_date,
       default_start sd (default_end env ed) s = Done start_date s ->
       plain_param rg = true -> plain_param ch = true -> no_fault env s 4 ->
       get_sales_analytics env sd ed rg ch s
       = Done (Ok (SalesMetricsResponse.mk 0 O 0 [] [] [])) (after 4 s)) /\
    (forall sd ed,
       no_fault env s 4 ->
       get_customer_analytics env sd ed s
       = Done (Ok (CustomerAnalyticsResponse.mk O O 0 0 [])) (after 4 s)) /\
    (forall category,
       plain_param category = true -> no_fault env s 3 ->
       get_product_analytics env category s
       = Done (Ok (ProductPerformanceResponse.mk O [] []
                     (InventoryInsights.mk O None None))) (after 3 s)).
Proof.
  intros env s Es Ec. split; [|split].
  - intros sd ed rg ch start_date. now apply sales_of_empty_table.
  - intros sd ed. now apply customers_of_empty_table.
  - intros category. now apply products_of_empty_table.
Qed.

Lemma empty_tables_answer_empty_witness :
  get_sales_analytics Fixture.env None None (Some "US") (Some "online")
    (mksession Fixture.empty_db O)
  = Done (Ok (SalesMetricsResponse.mk 0 O 0 [] [] []))
         (after 4 (mksession Fixture.empty_db O)) /\
  get_customer_analytics Fixture.env None None (mksession Fixture.empty_db O)
  = Done (Ok (CustomerAnalyticsResponse.mk O O 0 0 []))
         (after 4 (mksession Fixture.empty_db O)) /\
  get_product_analytics Fixture.env (Some "Electronics")
    (mksession Fixture.empty_db O)
  = Done (Ok (ProductPerformanceResponse.mk O [] []
                (InventoryInsights.mk O None None)))
         (after 3 (mksession Fixture.empty_db O)).
Proof.
  destruct (empty_tables_answer_empty Fixture.env (mksession Fixture.empty_db O)
              eq_refl eq_refl) as (S & C & P).
  split; [|split].
  - apply (S None None (Some "US") (Some "online") Fixture.jan1);
      try reflexivity. intros k _. reflexivity.
  - apply C. intros k _. reflexivity.
  - apply P; [reflexivity | intros k _; reflexivity].
Defined.

(** ** Seeding *)

(** X17. The seed endpoint creates no data: on an empty
    [sales_transactions] table it answers with its placeholder message and
    leaves the table empty, so a second request is answered in the same way
    and never with a count of existing transactions. *)
Theorem seeding_creates_no_data :
  forall env s r1 s1 r2 s2,
    sales_transactions (store s) = [] ->
    no_fault env s 2 ->
    seed_sample_data env s = Done r1 s1 ->
    seed_sample_data env s1 = Done r2 s2 ->
    r1 = Ok (SeedResponse.mk
               "Sample data seeding endpoint - implement based on business requirements") /\
    r2 = r1 /\
    store s2 = store s /\
    s2 = after 2 s.
Proof.
  intros env s r1 s1 r2 s2 E F H1 H2.
  apply no_fault_step in F. destruct F as [F0 F].
  apply no_fault_step in F. destruct F as [F1 _].
  revert H1. unfold seed_sample_data at 1.
  unfold try_except, bind, execute. rewrite F0.
  unfold Query.count_transactions. rewrite E. cbn.
  unfold ret. intros [= <- <-].
  revert H2. unfold seed_sample_data, try_except, bind, execute. rewrite F1.
  unfold Query.count_transactions. cbn [tick store]. rewrite E. cbn.
  unfold ret. intros [= <- <-]. now repeat split.
Qed.

Lemma seeding_creates_no_data_witness :
  exists r s2,
    seed_sample_data Fixture.env (tick (mksession Fixture.empty_db O))
    = Done r s2 /\
    r = Ok (SeedResponse.mk
              "Sample data seeding endpoint - implement based on business requirements") /\
    store s2 = Fixture.empty_db.
Proof.
  eexists. eexists. split; [reflexivity|].
  destruct (seeding_creates_no_data Fixture.env (mksession Fixture.empty_db O)
              _ _ _ _ eq_refl (fun k _ => eq_refl) eq_refl eq_refl)
    as (R1 & R2 & St & _).
  split; [exact (eq_trans R2 R1) | exact St].
Defined.

(** ** The statement that fails is the last one executed *)

Ltac statement_passes Hnone j :=
  let E := fresh "E" in
  pose proof (Hnone j ltac:(lia)) as E; cbn [Nat.add] in E;
  rewrite E; cbv beta iota; cbn [tick executed store]; clear E.

Ltac statement_fails Hf :=
  cbn [Nat.add] in Hf; rewrite Hf; reflexivity.

Lemma sales_stops_at_failure (env : environment)
  (sd ed : option Calendar.date) (rg ch : option string) (s : session)
  (start_date : Calendar.date) (k : nat) :
  (forall j, (j < k)%nat -> fails env (j + executed s) = false) ->
  fails env (k + executed s) = true -> (k < 4)%nat ->
  default_start sd (default_end env ed) s = Done start_date s ->
  plain_param rg = true -> plain_param ch = true ->
  get_sales_analytics env sd ed rg ch s
  = Done (HTTPException 500 "Internal server error") (after (S k) s).
Proof.
  intros Hnone Hf Hk H0 Pr Pc.
  destruct (conditions_plain start_date (default_end env ed) rg ch Pr Pc)
    as [p Hp].
  unfold get_sales_analytics, try_except, bind. rewrite H0, Hp.
  unfold execute_where, internal_server_error, ret.
  destruct k as [|[|[|[|k]]]]; [| | | |lia].
  - statement_fails Hf.
  - statement_passes Hnone 0%nat. statement_fails Hf.
  - statement_passes Hnone 0%nat. statement_passes Hnone 1%nat.
    statement_fails Hf.
  - statement_passes Hnone 0%nat. statement_passes Hnone 1%nat.
    statement_passes Hnone 2%nat. statement_fails Hf.
Qed.

Lemma customers_stops_at_failure (env : environment)
  (sd ed : option Calendar.date) (s : session) (k : nat) :
  (forall j, (j < k)%nat -> fails env (j + executed s) = false) ->
  fails env (k + executed s) = true -> (k < 4)%nat ->
  get_customer_analytics env sd ed s
  = Done (HTTPException 500 "Internal server error") (after (S k) s).
Proof.
  intros Hnone Hf Hk.
  unfold get_customer_analytics, try_except.
  destruct k as [|[|[|[|k]]]]; [| | | |lia].
  - now rewrite (bind_execute_fail env _ _ s Hf).
  - rewrite (bind_execute_run env _ _ s (Hnone 0%nat ltac:(lia))). cbv beta.
    now rewrite (bind_execute_fail env _ _ (after 1 s) Hf).
  - rewrite (bind_execute_run env _ _ s (Hnone 0%nat ltac:(lia))). cbv beta.
    rewrite (bind_execute_run env _ _ (after 1 s) (Hnone 1%nat ltac:(lia))).
    cbv beta.
    now rewrite (bind_execute_fail env _ _ (after 2 s) Hf).
  - rewrite (bind_execute_run env _ _ s (Hnone 0%nat ltac:(lia))). cbv beta.
    rewrite (bind_execute_run env _ _ (after 1 s) (Hnone 1%nat ltac:(lia))).
    cbv beta.
    rewrite (bind_execute_run env _ _ (after 2 s) (Hnone 2%nat ltac:(lia))).
    cbv beta. rewrite bind_retention.
    now rewrite (bind_execute_fail env _ _ (after 3 s) Hf).
Qed.

Lemma products_stops_at_failure (env : environment)
  (category : option string) (s : session) (k : nat) :
  (forall j, (j < k)%nat -> fails env (j + executed s) = false) ->
  fails env (k + executed s) = true -> (k < 3)%nat ->
  plain_param category = true ->
  get_product_analytics env category s
  = Done (HTTPException 500 "Internal server error") (after (S k) s).
Proof.
  intros Hnone Hf Hk P.
  destruct (category_clause_plain category P) as [p Hp].
  unfold get_product_analytics, try_except, bind. rewrite Hp.
  unfold execute_where, execute, internal_server_error, ret.
  destruct k as [|[|[|k]]]; [| | |lia].
  - statement_fails Hf.
  - statement_passes Hnone 0%nat. statement_fails Hf.
  - statement_passes Hnone 0%nat. statement_passes Hnone 1%nat.
    statement_fails Hf.
Qed.

(** X18. An aggregation makes no attempt after a failure: when the first
    statement the storage layer fails is statement [k] of the request, the
    handler answers with the internal error having executed [k + 1]
    statements, the failing one being the last, and the tables as they
    were. *)
Theorem failing_statement_is_the_last :
  forall env s k,
    (forall j, (j < k)%nat -> fails env (j + executed s) = false) ->
    fails env (k + executed s) = true ->
    store (after (S k) s) = store s /\
    executed (after (S k) s) = (S k + executed s)%nat /\
    (forall sd ed rg ch start_date,
       (k < 4)%nat ->
       default_start sd (default_end env ed) s = Done start_date s ->
       plain_param rg = true -> plain_param ch = true ->
       get_sales_analytics env sd ed rg ch s
       = Done (HTTPException 500 "Internal server error") (after (S k) s)) /\
    (forall sd ed,
       (k < 4)%nat ->
       get_customer_analytics env sd ed s
       = Done (HTTPException 500 "Internal server error") (after (S k) s)) /\
    (forall category,
       (k < 3)%nat -> plain_param category = true ->
       get_product_analytics env category s
       = Done (HTTPException 500 "Internal server error") (after (S k) s)).
Proof.
  intros env s k Hnone Hf.
  assert (forall n, store (after n s) = store s /\
                    executed (after n s) = (n + executed s)%nat) as A.
  { induction n as [|n [IH1 IH2]]; [now split|].
    unfold after in *. cbn. split; [exact IH1 | now f_equal]. }
  split; [apply A|]. split; [apply A|]. split; [|split].
  - intros. now apply (sales_stops_at_failure env sd ed rg ch s start_date).
  - intros. now apply customers_stops_at_failure.
  - intros. now apply products_stops_at_failure.
Qed.

Lemma failing_statement_is_the_last_witness :
  get_sales_analytics Fixture.env_flaky None None (Some "US") None Fixture.start
  = Done (HTTPException 500 "Internal server error") (after 3 Fixture.start) /\
  get_customer_analytics Fixture.env_flaky None None Fixture.start
  = Done (HTTPException 500 "Internal server error") (after 3 Fixture.start) /\
  get_product_analytics Fixture.env_flaky (Some "Tools") Fixture.start
  = Done (HTTPException 500 "Internal server error") (after 3 Fixture.start).
Proof.
  destruct (failing_statement_is_the_last Fixture.env_flaky Fixture.start 2)
    as (_ & _ & S & C & P).
  - intros j Hj. destruct j as [|[|j]]; [reflexivity | reflexivity | lia].
  - reflexivity.
  - split; [|split].
    + apply (S None None (Some "US") None Fixture.jan1); try reflexivity. lia.
    + apply C. lia.
    + apply P; [lia | reflexivity].
Defined.

(** ** The day of [end_date] *)




